(** * Notification monitor (Windows binding): model and properties

    A shallow embedding of
    [src/main/native/notification-monitor/notification-monitor-windows.cc]:
    the [NotificationMonitor] object wrapper, the two process-wide globals
    [g_callback] and [g_monitorInstance], and the record that
    [OnNotificationReceived] hands to the host callback, together with the
    UTC timestamp it formats with [put_time (gmtime ...)]. *)

From Stdlib Require Import ZArith String Ascii List Bool Lia.
From stdpp Require Import base option gmap strings list.

Local Open Scope Z_scope.

(** ** Calendar time: [std::gmtime] and [std::put_time] *)

Module Time.

(** [struct tm], restricted to the members the format string reads.
    As in C, [tm_mon] counts from 0 and [tm_year] from 1900. *)
Record tm : Type := mk_tm {
  tm_sec : Z;
  tm_min : Z;
  tm_hour : Z;
  tm_mday : Z;
  tm_mon : Z;
  tm_year : Z
}.

(** The C runtime decides which [time_t] values [gmtime] converts; outside
    that interval it returns a null pointer.  The interval is not part of
    the repository, so it is a parameter of the model. *)
Record CRuntime : Type := mk_crt {
  gmtime_min : Z;
  gmtime_max : Z
}.

(** The range documented for [_gmtime64] of the Windows C runtime:
    1970-01-01T00:00:00Z through 3000-12-31T23:59:59Z. *)
Definition ucrt : CRuntime :=
  {| gmtime_min := 0; gmtime_max := 32535215999 |}.

(** Proleptic Gregorian date of a day number counted from 1970-01-01.
    Years are cut at 1 March so that the leap day is the last day of a
    year; [era] is a 400-year cycle of 146097 days. *)
Definition civil_of_doe (doe : Z) : Z * Z * Z :=
  let yoe := (doe - doe / 1460 + doe / 36524 - doe / 146096) / 365 in
  let doy := doe - (365 * yoe + yoe / 4 - yoe / 100) in
  let mp := (5 * doy + 2) / 153 in
  let d := doy - (153 * mp + 2) / 5 + 1 in
  let m := if mp <? 10 then mp + 3 else mp - 9 in
  ((if m <=? 2 then yoe + 1 else yoe), m, d).

Definition civil_from_days (z : Z) : Z * Z * Z :=
  let z' := z + 719468 in
  let era := z' / 146097 in
  let doe := z' mod 146097 in
  let '(y, m, d) := civil_of_doe doe in
  (era * 400 + y, m, d).

(** The broken-down UTC time of [t] seconds since the epoch. *)
Definition broken_down (t : Z) : tm :=
  let days := t / 86400 in
  let rem := t mod 86400 in
  let '(y, m, d) := civil_from_days days in
  {| tm_sec := rem mod 60;
     tm_min := (rem / 60) mod 60;
     tm_hour := rem / 3600;
     tm_mday := d;
     tm_mon := m - 1;
     tm_year := y - 1900 |}.

(** [std::gmtime (&t)]: [None] stands for the null pointer. *)
Definition gmtime (crt : CRuntime) (t : Z) : option tm :=
  if (gmtime_min crt <=? t) && (t <=? gmtime_max crt)
  then Some (broken_down t) else None.

(** Decimal output. *)
Definition digit_char (d : Z) : ascii :=
  ascii_of_N (48 + Z.to_N d).

Fixpoint decimal_acc (fuel : nat) (n : Z) (acc : string) : string :=
  match fuel with
  | O => acc
  | S fuel' =>
      let acc' := String (digit_char (n mod 10)) acc in
      if n / 10 =? 0 then acc' else decimal_acc fuel' (n / 10) acc'
  end.

(** A 64-bit magnitude has at most 20 decimal digits. *)
Definition decimal (n : Z) : string :=
  if n <? 0 then String "-" (decimal_acc 20 (- n) EmptyString)
  else decimal_acc 20 n EmptyString.

(** [%m], [%d], [%H], [%M], [%S]: a decimal number padded with [0] to
    two characters. *)
Definition two_digits (n : Z) : string :=
  if (0 <=? n) && (n <? 10) then String "0" (decimal n) else decimal n.

(** [put_time (tm, "%Y-%m-%dT%H:%M:%SZ")]: [%Y] is the year as a decimal
    number, the other conversions are two-character fields, and the
    ordinary characters are copied. *)
Definition put_time (t : tm) : string :=
  decimal (tm_year t + 1900) +:+ "-" +:+
  two_digits (tm_mon t + 1) +:+ "-" +:+
  two_digits (tm_mday t) +:+ "T" +:+
  two_digits (tm_hour t) +:+ ":" +:+
  two_digits (tm_min t) +:+ ":" +:+
  two_digits (tm_sec t) +:+ "Z".

(** The pattern [^\d{4}-\d{2}-\d{2}T\d{2}:\d{2}:\d{2}Z$] as a sequence of
    character classes, each matching exactly one character. *)
Inductive CharClass : Type :=
| Digit
| Lit (c : ascii).

Definition is_digit (c : ascii) : bool :=
  let n := N_of_ascii c in ((48 <=? n) && (n <=? 57))%N.

Definition class_matches (k : CharClass) (c : ascii) : bool :=
  match k with
  | Digit => is_digit c
  | Lit c' => if ascii_dec c c' then true else false
  end.

Fixpoint matches (p : list CharClass) (s : string) : bool :=
  match p, s with
  | [], EmptyString => true
  | k :: p', String c s' => class_matches k c && matches p' s'
  | _, _ => false
  end.

Definition iso8601_pattern : list CharClass :=
  [Digit; Digit; Digit; Digit; Lit "-"; Digit; Digit; Lit "-"; Digit; Digit;
   Lit "T"; Digit; Digit; Lit ":"; Digit; Digit; Lit ":"; Digit; Digit;
   Lit "Z"]%char.

Definition is_iso8601_utc (s : string) : bool := matches iso8601_pattern s.

(** First and last second of the years written with four digits. *)
Definition year_1000_start : Z := -30610224000.
Definition year_9999_end : Z := 253402300799.

(** Bounded universal quantification over [lo, lo + count). *)
Fixpoint all_from (count : nat) (lo : Z) (p : Z -> bool) : bool :=
  match count with
  | O => true
  | S count' => p lo && all_from count' (lo + 1) p
  end.

(** Every day of a 400-year cycle has a month in 1..12, a day in 1..31
    and a year of the cycle in 0..400; the cycle's year 200 starts on its
    day 72989 (a 1 January), and its year 400 on day 146037. *)
Definition doe_ok (doe : Z) : bool :=
  let '(y, m, d) := civil_of_doe doe in
  (1 <=? m) && (m <=? 12) && (1 <=? d) && (d <=? 31) &&
  (0 <=? y) && (y <=? 400) &&
  ((doe <? 72989) || (200 <=? y)) &&
  ((146037 <=? doe) || (y <=? 399)).

End Time.

(** ** The binding layer: values, objects and effects *)

(** JavaScript values as the N-API layer distinguishes them.  Functions and
    objects are references; a function is named by a number. *)
Inductive JsValue : Type :=
| JsUndefined
| JsNull
| JsBoolean (b : bool)
| JsNumber (n : Z)
| JsString (s : string)
| JsFunction (f : nat)
| JsObject (o : nat).

Definition IsFunction (v : JsValue) : bool :=
  match v with JsFunction _ => true | _ => false end.

Definition IsString (v : JsValue) : bool :=
  match v with JsString _ => true | _ => false end.

(** [Napi::CallbackInfo]: the arguments of a call.  [info[i]] past the last
    argument is [undefined]. *)
Definition CallbackInfo : Type := list JsValue.

Definition Length (info : CallbackInfo) : Z := Z.of_nat (length info).

Definition arg (info : CallbackInfo) (i : nat) : JsValue :=
  nth i info JsUndefined.

(** A freshly created [Napi::Object] and its own properties. *)
Abbreviation JsRecord := (gmap string JsValue).

(** Errors raised into JavaScript with [ThrowAsJavaScriptException]. *)
Inductive JsError : Type :=
| TypeError (message : string).

(** C++ exceptions: an empty [std::function] that is called, and
    [Napi::Error], which carries a JavaScript exception of a called host
    function.  Both derive from [std::exception]. *)
Inductive CppException : Type :=
| BadFunctionCall
| NapiError.

(** The members of a [NotificationMonitor] instance.  [callback_] is a
    persistent reference to a host function and is empty until the
    constructor has stored one. *)
Record NotificationMonitor : Type := mk_monitor {
  callback_ : option nat;
  isMonitoring_ : bool
}.

(** The process: the live instances by address, the two globals, the
    JavaScript exception pending in the environment, and the system clock
    in seconds since the epoch.  [g_callback] is a closure that captures
    [this]; the captured address is all it holds. *)
Record World : Type := mk_world {
  heap : gmap nat NotificationMonitor;
  next_address : nat;
  g_callback : option nat;
  g_monitorInstance : option nat;
  pending_exception : option JsError;
  system_clock : Z
}.

Definition initial_world (now : Z) : World :=
  {| heap := ∅; next_address := 0%nat; g_callback := None;
     g_monitorInstance := None; pending_exception := None;
     system_clock := now |}.

(** What a run does besides changing the world: entries into
    [SetupMonitoring] and calls of a host function with its argument. *)
Inductive Event : Type :=
| EvSetupMonitoring (this : nat)
| EvHostCall (f : nat) (payload : JsRecord).

(** What lies outside the repository: the C runtime, whether a host
    function raises when called with a record, and what the UTF-8 decoder
    of the JavaScript engine makes of a byte string that is not seven-bit
    text (it puts U+FFFD in place of ill-formed sequences). *)
Record Environment : Type := mk_env {
  crt : Time.CRuntime;
  host_throws : nat -> JsRecord -> bool;
  decode_utf8 : string -> string
}.

(** Seven-bit text: every byte is below 128. *)
Fixpoint is_seven_bit (s : string) : bool :=
  match s with
  | EmptyString => true
  | String c s' => (N_of_ascii c <? 128)%N && is_seven_bit s'
  end.

(** [Napi::String::New (env, s)]: the JavaScript string that the bytes of
    [s] decode to as UTF-8.  Seven-bit text decodes to itself; other
    bytes are left to the decoder of the engine. *)
Definition String_New (env : Environment) (s : string) : JsValue :=
  JsString (if is_seven_bit s then s else decode_utf8 env s).

(** *** Execution monad

    A computation runs in a world and either crashes the process ([None]:
    a dead object or a null pointer is used) or completes, by returning
    or by throwing a C++ exception, in a new world and with the events it
    produced. *)
Inductive Completion (A : Type) : Type :=
| Returns (a : A)
| Throws (e : CppException).
Arguments Returns {A} a.
Arguments Throws {A} e.

Definition Exec (A : Type) : Type :=
  World -> option (Completion A * World * list Event).

#[global] Instance exec_ret : MRet Exec :=
  fun A a w => Some (Returns a, w, []).

#[global] Instance exec_bind : MBind Exec :=
  fun A B k m w =>
    match m w with
    | None => None
    | Some (Throws e, w1, t1) => Some (Throws e, w1, t1)
    | Some (Returns a, w1, t1) =>
        match k a w1 with
        | None => None
        | Some (c, w2, t2) => Some (c, w2, t1 ++ t2)
        end
    end.

Definition crash {A : Type} : Exec A := fun _ => None.

Definition throw {A : Type} (e : CppException) : Exec A :=
  fun w => Some (Throws e, w, []).

(** [try { body } catch (const std::exception&) { handler }] *)
Definition try_catch {A : Type} (body : Exec A)
    (handler : CppException -> Exec A) : Exec A :=
  fun w =>
    match body w with
    | None => None
    | Some (Returns a, w1, t1) => Some (Returns a, w1, t1)
    | Some (Throws e, w1, t1) =>
        match handler e w1 with
        | None => None
        | Some (c, w2, t2) => Some (c, w2, t1 ++ t2)
        end
    end.

Definition emit (e : Event) : Exec unit :=
  fun w => Some (Returns tt, w, [e]).

Definition get_world : Exec World := fun w => Some (Returns w, w, []).

Definition put_world (w' : World) : Exec unit :=
  fun _ => Some (Returns tt, w', []).

(** Reading and writing the members of [*this]. *)
Definition load (this : nat) : Exec NotificationMonitor :=
  fun w =>
    match heap w !! this with
    | Some m => Some (Returns m, w, [])
    | None => None
    end.

Definition update_monitor (w : World) (this : nat)
    (m : NotificationMonitor) : World :=
  {| heap := <[this := m]> (heap w);
     next_address := next_address w;
     g_callback := g_callback w;
     g_monitorInstance := g_monitorInstance w;
     pending_exception := pending_exception w;
     system_clock := system_clock w |}.

Definition store (this : nat) (m : NotificationMonitor) : Exec unit :=
  fun w =>
    match heap w !! this with
    | Some _ => Some (Returns tt, update_monitor w this m, [])
    | None => None
    end.

Definition set_isMonitoring (this : nat) (b : bool) : Exec unit :=
  m ← load this;
  store this {| callback_ := callback_ m; isMonitoring_ := b |}.

Definition set_callback (this : nat) (f : nat) : Exec unit :=
  m ← load this;
  store this {| callback_ := Some f; isMonitoring_ := isMonitoring_ m |}.

(** [new]: storage for an instance at a fresh address. *)
Definition allocate (m : NotificationMonitor) : Exec nat :=
  fun w =>
    let this := next_address w in
    Some (Returns this,
          {| heap := <[this := m]> (heap w);
             next_address := S this;
             g_callback := g_callback w;
             g_monitorInstance := g_monitorInstance w;
             pending_exception := pending_exception w;
             system_clock := system_clock w |}, []).

Definition deallocate (this : nat) : Exec unit :=
  fun w =>
    match heap w !! this with
    | Some _ =>
        Some (Returns tt,
              {| heap := delete this (heap w);
                 next_address := next_address w;
                 g_callback := g_callback w;
                 g_monitorInstance := g_monitorInstance w;
                 pending_exception := pending_exception w;
                 system_clock := system_clock w |}, [])
    | None => None
    end.

Definition set_globals (this : nat) : Exec unit :=
  fun w =>
    Some (Returns tt,
          {| heap := heap w;
             next_address := next_address w;
             g_callback := Some this;
             g_monitorInstance := Some this;
             pending_exception := pending_exception w;
             system_clock := system_clock w |}, []).

(** [Napi::TypeError::New (env, msg).ThrowAsJavaScriptException ()]: the
    error becomes the pending exception of the environment and control
    returns to the caller. *)
Definition ThrowAsJavaScriptException (e : JsError) : Exec unit :=
  fun w =>
    Some (Returns tt,
          {| heap := heap w;
             next_address := next_address w;
             g_callback := g_callback w;
             g_monitorInstance := g_monitorInstance w;
             pending_exception := Some e;
             system_clock := system_clock w |}, []).

(** ** The class [NotificationMonitor] *)

Section Monitor.
Variable env : Environment.

(** [callback_.Call ({obj})]: the host function runs with the record; a
    JavaScript exception it raises arrives as a [Napi::Error]. *)
Definition Call (f : nat) (payload : JsRecord) : Exec JsValue :=
  emit (EvHostCall f payload);;
  if host_throws env f payload then throw NapiError else mret JsUndefined.

(** [std::chrono::system_clock::to_time_t (system_clock::now ())] *)
Definition system_clock_now : Exec Z :=
  w ← get_world; mret (system_clock w).

(** [ss << std::put_time (std::gmtime (&t), fmt)]; a null [tm] pointer
    is dereferenced by [put_time]. *)
Definition format_utc (t : Z) : Exec string :=
  match Time.gmtime (crt env) t with
  | Some b => mret (Time.put_time b)
  | None => crash
  end.

(** The constructor.  The member initialisers run first; a missing or
    non-function first argument raises the type error and returns before
    anything else is assigned.  [info[0].As<Napi::Function> ()] is only
    reached for a function. *)
Definition construct (info : CallbackInfo) : Exec nat :=
  this ← allocate {| callback_ := None; isMonitoring_ := false |};
  if (Length info <? 1) || negb (IsFunction (arg info 0)) then
    ThrowAsJavaScriptException (TypeError "Callback function required");;
    mret this
  else
    match arg info 0 with
    | JsFunction cb =>
        set_callback this cb;;
        set_globals this;;
        mret this
    | _ => crash
    end.

Definition SetupMonitoring (this : nat) : Exec unit :=
  emit (EvSetupMonitoring this);;
  set_isMonitoring this true.

Definition Start (this : nat) (info : CallbackInfo) : Exec JsValue :=
  m ← load this;
  (if negb (isMonitoring_ m) then SetupMonitoring this else mret tt);;
  mret JsUndefined.

Definition Stop (this : nat) (info : CallbackInfo) : Exec JsValue :=
  set_isMonitoring this false;;
  mret JsUndefined.

(** [Napi::CallbackInfo (nullptr, 0)]: a [CallbackInfo] built for a null
    environment.  Its constructor asks the null environment for the
    arguments of the call, which fails, and raising the error for a null
    environment is fatal: the process aborts. *)
Definition CallbackInfo_of_null_env : Exec CallbackInfo := crash.

(** The body of the destructor; the storage is released after it.  The
    argument of [Stop] is built before [Stop] is entered. *)
Definition destructor (this : nat) : Exec unit :=
  m ← load this;
  if isMonitoring_ m then
    info ← CallbackInfo_of_null_env;
    Stop this info;;
    mret tt
  else mret tt.

Definition delete_instance (this : nat) : Exec unit :=
  destructor this;;
  deallocate this.

(** The record is built and handed to the host function inside the
    [try] block, whose handler is empty.  An instance without a callback
    has no environment to build the record in. *)
Definition OnNotificationReceived (this : nat)
    (appName title body : string) : Exec unit :=
  m ← load this;
  match callback_ m with
  | None => crash
  | Some cb =>
      try_catch
        (let notificationObj : JsRecord := ∅ in
         let notificationObj :=
           <["appName" := String_New env appName]> notificationObj in
         let notificationObj :=
           <["title" := String_New env title]> notificationObj in
         let notificationObj :=
           <["body" := String_New env body]> notificationObj in
         now ← system_clock_now;
         ss ← format_utc now;
         let notificationObj :=
           <["timestamp" := String_New env ss]> notificationObj in
         Call cb notificationObj;;
         mret tt)
        (fun _ => mret tt)
  end.

(** Calling the closure stored in [g_callback]; an empty [std::function]
    throws [std::bad_function_call]. *)
Definition call_g_callback (appName title body : string) : Exec unit :=
  w ← get_world;
  match g_callback w with
  | Some this => OnNotificationReceived this appName title body
  | None => throw BadFunctionCall
  end.

End Monitor.

(** Observations on an outcome. *)
Definition host_calls (t : list Event) : list (nat * JsRecord) :=
  omap (fun e => match e with
                 | EvHostCall f p => Some (f, p)
                 | EvSetupMonitoring _ => None
                 end) t.

Definition is_setup (e : Event) : bool :=
  match e with EvSetupMonitoring _ => true | EvHostCall _ _ => false end.

Definition setup_calls (t : list Event) : nat :=
  length (List.filter is_setup t).

Definition monitoring (w : World) (this : nat) : option bool :=
  isMonitoring_ <$> heap w !! this.

(** ** Programs of the host

    A host program is a sequence of the calls the module makes possible:
    [new NotificationMonitor (...)], the methods [start] and [stop],
    finalisation of an instance, a notification arriving through
    [g_callback] or handed to an instance directly, and time passing. *)
Inductive Op : Type :=
| OpNew (info : CallbackInfo)
| OpStart (this : nat) (info : CallbackInfo)
| OpStop (this : nat) (info : CallbackInfo)
| OpDelete (this : nat)
| OpNotify (appName title body : string)
| OpDeliver (this : nat) (appName title body : string)
| OpClock (now : Z).

(** On return to JavaScript the pending exception leaves the native side. *)
Definition take_pending_exception : Exec (option JsError) :=
  fun w =>
    Some (Returns (pending_exception w),
          {| heap := heap w;
             next_address := next_address w;
             g_callback := g_callback w;
             g_monitorInstance := g_monitorInstance w;
             pending_exception := None;
             system_clock := system_clock w |}, []).

Definition set_clock (now : Z) : Exec unit :=
  fun w =>
    Some (Returns tt,
          {| heap := heap w;
             next_address := next_address w;
             g_callback := g_callback w;
             g_monitorInstance := g_monitorInstance w;
             pending_exception := pending_exception w;
             system_clock := now |}, []).

Section Programs.
Variable env : Environment.

(** One call.  [latest] is the instance that the most recent successful
    [new] returned to the host, and the result is its new value. *)
Definition perform (op : Op) (latest : option nat) : Exec (option nat) :=
  match op with
  | OpNew info =>
      this ← construct info;
      e ← take_pending_exception;
      mret (match e with None => Some this | Some _ => latest end)
  | OpStart this info => Start this info;; mret latest
  | OpStop this info => Stop this info;; mret latest
  | OpDelete this => delete_instance this;; mret latest
  | OpNotify appName title body =>
      call_g_callback env appName title body;; mret latest
  | OpDeliver this appName title body =>
      OnNotificationReceived env this appName title body;; mret latest
  | OpClock now => set_clock now;; mret latest
  end.

Fixpoint run (ops : list Op) (latest : option nat) : Exec (option nat) :=
  match ops with
  | [] => mret latest
  | op :: ops' => latest' ← perform op latest; run ops' latest'
  end.

End Programs.

(** The first argument is present and is a function. *)
Definition supplies_callback (info : CallbackInfo) : bool :=
  match info with
  | JsFunction _ :: _ => true
  | _ => false
  end.

(** The names of the fields of a notification record. *)
Definition record_fields : gset string :=
  {[ "appName"; "title"; "body"; "timestamp" ]}.

(** The record that [OnNotificationReceived] builds. *)
Definition notification_record (env : Environment)
    (appName title body timestamp : string) : JsRecord :=
  <["timestamp" := String_New env timestamp]>
    (<["body" := String_New env body]>
       (<["title" := String_New env title]>
          (<["appName" := String_New env appName]> ∅))).

(** What [Start] or [Stop] may change: the monitoring flag of [this]. *)
Definition only_flag_changed (w w1 : World) (this : nat) : Prop :=
  (forall other, other <> this -> heap w1 !! other = heap w !! other) /\
  callback_ <$> heap w1 !! this = callback_ <$> heap w !! this /\
  dom (heap w1) = dom (heap w) /\
  next_address w1 = next_address w /\
  g_callback w1 = g_callback w /\
  g_monitorInstance w1 = g_monitorInstance w /\
  pending_exception w1 = pending_exception w /\
  system_clock w1 = system_clock w.

(** The world after a construction that stored the callback [cb]. *)
Definition constructed (w : World) (cb : nat) : World :=
  {| heap := <[next_address w :=
                 {| callback_ := Some cb; isMonitoring_ := false |}]> (heap w);
     next_address := S (next_address w);
     g_callback := Some (next_address w);
     g_monitorInstance := Some (next_address w);
     pending_exception := pending_exception w;
     system_clock := system_clock w |}.

(** The world after a construction that raised the type error. *)
Definition rejected (w : World) : World :=
  {| heap := <[next_address w :=
                 {| callback_ := None; isMonitoring_ := false |}]> (heap w);
     next_address := S (next_address w);
     g_callback := g_callback w;
     g_monitorInstance := g_monitorInstance w;
     pending_exception := Some (TypeError "Callback function required");
     system_clock := system_clock w |}.

(** The part of the process that only the constructor may write: the two
    globals, and the exception pending for the host. *)
Definition globals_of (w : World) : option nat * option nat * option JsError :=
  (g_monitorInstance w, g_callback w, pending_exception w).

Definition keeps_globals {A : Type} (e : Exec A) : Prop :=
  forall w c w1 t, e w = Some (c, w1, t) -> globals_of w1 = globals_of w.

(** Both globals refer to the instance of the latest successful
    construction, and no exception is pending. *)
Definition globals_follow (w : World) (latest : option nat) : Prop :=
  g_monitorInstance w = latest /\ g_callback w = latest /\
  pending_exception w = None.

(** ** A UTF-8 decoder that replaces ill-formed sequences *)

Module Utf8.

(** The bytes of U+FFFD. *)
Definition replacement : string :=
  String (ascii_of_N 239) (String (ascii_of_N 191)
    (String (ascii_of_N 189) EmptyString)).

(** A sequence under way: the continuation bytes still needed, the
    bounds for the next byte, and the bytes read so far. *)
Record Pending : Type := mk_pending {
  needed : nat;
  lower : N;
  upper : N;
  seen : string
}.

(** A byte met outside a sequence: seven-bit and copied, the first byte
    of a sequence, or ill-formed.  The result is the output and the
    sequence under way, if any. *)
Definition first_byte (b : ascii) : string * option Pending :=
  let n := N_of_ascii b in
  let one := String b EmptyString in
  if (n <=? 127)%N then (one, None)
  else if ((194 <=? n) && (n <=? 223))%N then
    (EmptyString,
     Some {| needed := 1; lower := 128; upper := 191; seen := one |})
  else if ((224 <=? n) && (n <=? 239))%N then
    (EmptyString,
     Some {| needed := 2;
             lower := if (n =? 224)%N then 160%N else 128%N;
             upper := if (n =? 237)%N then 159%N else 191%N;
             seen := one |})
  else if ((240 <=? n) && (n <=? 244))%N then
    (EmptyString,
     Some {| needed := 3;
             lower := if (n =? 240)%N then 144%N else 128%N;
             upper := if (n =? 244)%N then 143%N else 191%N;
             seen := one |})
  else (replacement, None).

(** A byte met inside a sequence: it continues the sequence, or the
    sequence so far is ill-formed and the byte is read afresh. *)
Definition next_byte (p : Pending) (b : ascii) : string * option Pending :=
  let n := N_of_ascii b in
  if ((lower p <=? n) && (n <=? upper p))%N then
    let bytes := String.append (seen p) (String b EmptyString) in
    match needed p with
    | S (S k) =>
        (EmptyString,
         Some {| needed := S k; lower := 128; upper := 191; seen := bytes |})
    | _ => (bytes, None)
    end
  else
    let '(out, st) := first_byte b in (String.append replacement out, st).

Fixpoint decode_from (st : option Pending) (s : string) : string :=
  match s with
  | EmptyString =>
      match st with Some _ => replacement | None => EmptyString end
  | String b s' =>
      let '(out, st') :=
        match st with
        | None => first_byte b
        | Some p => next_byte p b
        end in
      String.append out (decode_from st' s')
  end.

(** Well-formed sequences are kept; each maximal ill-formed part becomes
    one U+FFFD. *)
Definition decode_replacing (s : string) : string := decode_from None s.

Definition of_bytes (bytes : list N) : string :=
  fold_right (fun n s => String (ascii_of_N n) s) EmptyString bytes.

End Utf8.

(** ** Sample worlds and runs *)

Module Sample.

(** A host whose functions never raise, on the Windows C runtime, with a
    decoder that replaces ill-formed sequences. *)
Definition env : Environment :=
  {| crt := Time.ucrt; host_throws := fun _ _ => false;
     decode_utf8 := Utf8.decode_replacing |}.

(** 2026-10-30T00:00:00Z *)
Definition now : Z := 1793318400.

(** One instance at address 0 that holds the host function 7. *)
Definition world_with (flag : bool) : World :=
  {| heap := {[ 0%nat := {| callback_ := Some 7%nat; isMonitoring_ := flag |} ]};
     next_address := 1%nat;
     g_callback := Some 0%nat;
     g_monitorInstance := Some 0%nat;
     pending_exception := None;
     system_clock := now |}.

Definition idle : World := world_with false.
Definition active : World := world_with true.

(** [m = new NotificationMonitor (f7); m.start (); m.stop ()] and then an
    event for the instance. *)
Definition started_then_stopped : Exec unit :=
  this ← construct [JsFunction 7];
  Start this [];;
  Stop this [];;
  OnNotificationReceived env this "Mail" "Hello" "World".

(** Two monitors, the first started, and one notification. *)
Definition two_monitors : list Op :=
  [OpNew [JsFunction 7]; OpStart 0 []; OpNew [JsFunction 8];
   OpNew [JsNumber 1]; OpNotify "Mail" "Hello" "World"].

End Sample.

(** ** Sequences of method calls on one instance *)

(** A call of one of the two instance methods that [Init] registers. *)
Inductive MethodCall : Type :=
| CallStart (info : CallbackInfo)
| CallStop (info : CallbackInfo).

Definition is_start (c : MethodCall) : bool :=
  match c with CallStart _ => true | CallStop _ => false end.

Definition invoke (this : nat) (c : MethodCall) : Exec JsValue :=
  match c with
  | CallStart info => Start this info
  | CallStop info => Stop this info
  end.

Fixpoint invoke_all (this : nat) (cs : list MethodCall) : Exec unit :=
  match cs with
  | [] => mret tt
  | c :: cs' => invoke this c;; invoke_all this cs'
  end.

(** The flag after a sequence of calls: that of the last call, if any. *)
Definition flag_after (flag : bool) (cs : list MethodCall) : bool :=
  match last cs with
  | Some c => is_start c
  | None => flag
  end.

(** The completion and the world of an outcome, without the events. *)
Definition result_of {A : Type}
    (r : option (Completion A * World * list Event))
    : option (Completion A * World) :=
  fst <$> r.

(** A computation that calls no host function. *)
Definition quiet {A : Type} (e : Exec A) : Prop :=
  forall w c w1 t, e w = Some (c, w1, t) -> host_calls t = [].


(** ** Notifications of a program and of a run *)

(** The strings of a notification that a call of the host hands in. *)
Definition notification_of (op : Op) : option (string * string * string) :=
  match op with
  | OpNotify appName title body => Some (appName, title, body)
  | OpDeliver _ appName title body => Some (appName, title, body)
  | _ => None
  end.

Definition notifications (ops : list Op) : list (string * string * string) :=
  omap notification_of ops.

(** The values a record carries in its first three fields. *)
Definition event_of (payload : JsRecord)
    : option (JsValue * JsValue * JsValue) :=
  match payload !! "appName", payload !! "title", payload !! "body" with
  | Some appName, Some title, Some body => Some (appName, title, body)
  | _, _, _ => None
  end.

Definition delivered (t : list Event)
    : list (option (JsValue * JsValue * JsValue)) :=
  (fun call => event_of call.2) <$> host_calls t.

(** The values that [Napi::String::New] makes of the strings of a
    notification. *)
Definition as_delivered (env : Environment)
    (notification : string * string * string)
    : option (JsValue * JsValue * JsValue) :=
  Some (String_New env notification.1.1, String_New env notification.1.2,
        String_New env notification.2).

(** ** Registration of the class: [Init] *)

(** The member functions that [DefineClass] is given. *)
Inductive NativeMethod : Type :=
| MethodStart
| MethodStop.

(** A class as [DefineClass] builds it: the constructor function, which
    is a new function object at every call of [DefineClass], its name and
    its instance methods by property name. *)
Record ClassDefinition : Type := mk_class {
  class_function : nat;
  class_name : string;
  instance_methods : list (string * NativeMethod)
}.

(** A property of the [exports] object: a plain value, or a class. *)
Inductive Export : Type :=
| ExportValue (v : JsValue)
| ExportClass (cls : ClassDefinition).

(** [DefineClass (env, name, methods)]; [fresh] names the function object
    that the engine creates for the class. *)
Definition DefineClass (fresh : nat) (name : string)
    (methods : list (string * NativeMethod)) : ClassDefinition :=
  {| class_function := fresh; class_name := name;
     instance_methods := methods |}.

(** [NotificationMonitor::Init]: the new value of the static
    [constructor] reference, which is overwritten, and the [exports]
    object it returns. *)
Definition NotificationMonitor_Init (fresh : nat)
    (exports : gmap string Export)
    : option ClassDefinition * gmap string Export :=
  let func :=
    DefineClass fresh "NotificationMonitor"
      [("start", MethodStart); ("stop", MethodStop)] in
  (Some func, <["NotificationMonitor" := ExportClass func]> exports).

(** The module entry point of the Windows file. *)
Definition Init (fresh : nat) (exports : gmap string Export)
    : option ClassDefinition * gmap string Export :=
  NotificationMonitor_Init fresh exports.

(** The module entry point of [notification-monitor.cc]. *)
Definition Init_entry_point (exports : gmap string Export)
    : gmap string Export :=
  exports.

(** The instance method of a class with a given property name. *)
Definition method_of (cls : ClassDefinition) (name : string)
    : option NativeMethod :=
  snd <$> List.find (fun entry => String.eqb entry.1 name) (instance_methods cls).

(** What a host program can do with an [exports] object: construct
    through one of its properties, call a property of an instance, lose
    the last reference to an instance, and let time pass. *)
Inductive JsOp : Type :=
| JsNew (property : string) (info : CallbackInfo)
| JsCall (this : nat) (cls : ClassDefinition) (property : string)
    (info : CallbackInfo)
| JsFinalize (this : nat)
| JsClock (now : Z).

(** The native call behind a step of the host program, if there is one:
    a property that is no class cannot be constructed, and a property that
    is no instance method cannot be called. *)
Definition native_call (exports : gmap string Export) (op : JsOp) : option Op :=
  match op with
  | JsNew property info =>
      match exports !! property with
      | Some (ExportClass _) => Some (OpNew info)
      | _ => None
      end
  | JsCall this cls property info =>
      match method_of cls property with
      | Some MethodStart => Some (OpStart this info)
      | Some MethodStop => Some (OpStop this info)
      | None => None
      end
  | JsFinalize this => Some (OpDelete this)
  | JsClock now => Some (OpClock now)
  end.

Definition js_run (env : Environment) (exports : gmap string Export)
    (program : list JsOp) : Exec (option nat) :=
  run env (omap (native_call exports) program) None.

(** ** From a broken-down time back to seconds *)

Module Timegm.

(** The day of the 400-year cycle, from the year of the cycle (cut at
    1 March), the month and the day of the month. *)
Definition doe_of_civil (yoe m d : Z) : Z :=
  let mp := if 2 <? m then m - 3 else m + 9 in
  let doy := (153 * mp + 2) / 5 + d - 1 in
  yoe * 365 + yoe / 4 - yoe / 100 + doy.

(** The day number, counted from 1970-01-01, of a Gregorian date. *)
Definition days_from_civil (y m d : Z) : Z :=
  let y' := if m <=? 2 then y - 1 else y in
  let era := y' / 400 in
  let yoe := y' mod 400 in
  era * 146097 + doe_of_civil yoe m d - 719468.

(** The seconds since the epoch that a broken-down UTC time denotes. *)
Definition seconds_of (b : Time.tm) : Z :=
  days_from_civil (Time.tm_year b + 1900) (Time.tm_mon b + 1) (Time.tm_mday b)
  * 86400
  + Time.tm_hour b * 3600 + Time.tm_min b * 60 + Time.tm_sec b.

(** The date of a day of the cycle leads back to that day. *)
Definition doe_round_trip (doe : Z) : bool :=
  let '(y, m, d) := Time.civil_of_doe doe in
  let yoe := if m <=? 2 then y - 1 else y in
  (0 <=? yoe) && (yoe <=? 399) && (doe_of_civil yoe m d =? doe).

End Timegm.

(** ** Instances over a program *)

(** The instance whose members a call of the host may write. *)
Definition target (op : Op) : option nat :=
  match op with
  | OpStart this _ | OpStop this _ | OpDelete this => Some this
  | _ => None
  end.

(** How the instances that exist in [w] fare up to [w1]: addresses are
    never handed out twice, and an instance is either as it was, or it is
    the target of the call and was released or had its flag written. *)
Definition instances_evolve (touched : nat -> Prop) (w w1 : World) : Prop :=
  (next_address w <= next_address w1)%nat /\
  forall this, (this < next_address w)%nat ->
    heap w1 !! this = heap w !! this \/
    (touched this /\
     (heap w1 !! this = None \/
      exists m b, heap w !! this = Some m /\
                  heap w1 !! this
                  = Some {| callback_ := callback_ m; isMonitoring_ := b |})).

Definition targets (ops : list Op) (this : nat) : Prop :=
  Exists (fun op => target op = Some this) ops.

Example put_time_epoch :
  Time.put_time <$> Time.gmtime Time.ucrt 0 = Some "1970-01-01T00:00:00Z"%string.
Proof. reflexivity. Qed.

Example put_time_leap_day :
  Time.put_time <$> Time.gmtime Time.ucrt 1709251199
  = Some "2024-02-29T23:59:59Z"%string.
Proof. reflexivity. Qed.

(** *** Facts about the decimal fields *)

Section TimeFacts.
Import Time.

Ltac divmod := Z.div_mod_to_equations; lia.

Lemma is_digit_digit_char (d : Z) :
  0 <= d <= 9 -> is_digit (digit_char d) = true.
Proof.
  intros Hd.
  assert (Hcases : d = 0 \/ d = 1 \/ d = 2 \/ d = 3 \/ d = 4 \/ d = 5 \/
                   d = 6 \/ d = 7 \/ d = 8 \/ d = 9) by lia.
  repeat (destruct Hcases as [-> | Hcases]; [reflexivity |]).
  subst d. reflexivity.
Qed.

Lemma decimal_acc_last (fuel : nat) (n : Z) (acc : string) :
  n / 10 = 0 ->
  decimal_acc (S fuel) n acc = String (digit_char (n mod 10)) acc.
Proof. intros H. cbn [decimal_acc]. rewrite H. reflexivity. Qed.

Lemma decimal_acc_more (fuel : nat) (n : Z) (acc : string) :
  n / 10 <> 0 ->
  decimal_acc (S fuel) n acc
  = decimal_acc fuel (n / 10) (String (digit_char (n mod 10)) acc).
Proof.
  intros H. cbn [decimal_acc].
  destruct (Z.eqb_spec (n / 10) 0) as [E | _]; [contradiction | reflexivity].
Qed.

(** A year of four digits is printed as its four digits. *)
Lemma decimal_four_digits (n : Z) :
  1000 <= n <= 9999 ->
  decimal n =
    String (digit_char (n / 1000))
      (String (digit_char (n / 100 mod 10))
         (String (digit_char (n / 10 mod 10))
            (String (digit_char (n mod 10)) EmptyString))).
Proof.
  intros Hn. unfold decimal.
  destruct (Z.ltb_spec n 0) as [Hneg | _]; [lia |].
  rewrite decimal_acc_more by divmod.
  rewrite decimal_acc_more by divmod.
  rewrite decimal_acc_more by divmod.
  rewrite decimal_acc_last by divmod.
  replace (n / 10 / 10 / 10 mod 10) with (n / 1000) by divmod.
  replace (n / 10 / 10 mod 10) with (n / 100 mod 10) by divmod.
  reflexivity.
Qed.

(** A field between 0 and 99 is printed as exactly two digits. *)
Lemma two_digits_spec (n : Z) :
  0 <= n <= 99 ->
  two_digits n =
    String (digit_char (n / 10)) (String (digit_char (n mod 10)) EmptyString).
Proof.
  intros Hn. unfold two_digits, decimal.
  destruct (Z.ltb_spec n 0) as [Hneg | _]; [lia |].
  destruct (Z.leb_spec 0 n) as [_ | Hneg]; [| lia].
  destruct (Z.ltb_spec n 10) as [Hsmall | Hbig]; cbn [andb].
  - rewrite decimal_acc_last by divmod.
    replace (n / 10) with 0 by divmod. reflexivity.
  - rewrite decimal_acc_more by divmod.
    rewrite decimal_acc_last by divmod.
    replace (n / 10 mod 10) with (n / 10) by divmod. reflexivity.
Qed.

Lemma all_from_spec (count : nat) (lo : Z) (p : Z -> bool) :
  all_from count lo p = true ->
  forall z, lo <= z < lo + Z.of_nat count -> p z = true.
Proof.
  revert lo. induction count as [| count IH]; intros lo Hall z Hz.
  - lia.
  - cbn [all_from] in Hall. apply andb_prop in Hall as [Hlo Hrest].
    destruct (Z.eq_dec z lo) as [-> | Hne]; [exact Hlo |].
    apply (IH (lo + 1) Hrest). lia.
Qed.

Lemma doe_ok_all : all_from (Z.to_nat 146097) 0 doe_ok = true.
Proof. vm_compute. reflexivity. Qed.

Lemma civil_of_doe_bounds (doe : Z) :
  0 <= doe < 146097 ->
  let '(y, m, d) := civil_of_doe doe in
  1 <= m <= 12 /\ 1 <= d <= 31 /\ 0 <= y <= 400 /\
  (72989 <= doe -> 200 <= y) /\ (doe < 146037 -> y <= 399).
Proof.
  intros Hdoe.
  assert (Hok : doe_ok doe = true).
  { apply (all_from_spec _ _ _ doe_ok_all). lia. }
  unfold doe_ok in Hok. destruct (civil_of_doe doe) as [[y m] d].
  repeat (apply andb_prop in Hok; destruct Hok as [Hok ?]).
  repeat match goal with
         | H : (_ || _) = true |- _ => apply orb_prop in H
         end.
  lia.
Qed.

Lemma civil_from_days_bounds (z : Z) :
  -354285 <= z <= 2932896 ->
  let '(y, m, d) := civil_from_days z in
  1000 <= y <= 9999 /\ 1 <= m <= 12 /\ 1 <= d <= 31.
Proof.
  intros Hz. unfold civil_from_days.
  pose proof (civil_of_doe_bounds ((z + 719468) mod 146097)) as Hdoe.
  destruct (civil_of_doe ((z + 719468) mod 146097)) as [[y m] d].
  assert (Hrange : 0 <= (z + 719468) mod 146097 < 146097) by divmod.
  specialize (Hdoe Hrange). divmod.
Qed.

(** The members of a broken-down time between the years 1000 and 9999. *)
Lemma broken_down_bounds (t : Z) :
  year_1000_start <= t <= year_9999_end ->
  let b := broken_down t in
  1000 <= tm_year b + 1900 <= 9999 /\ 1 <= tm_mon b + 1 <= 12 /\
  1 <= tm_mday b <= 31 /\ 0 <= tm_hour b <= 23 /\
  0 <= tm_min b <= 59 /\ 0 <= tm_sec b <= 59.
Proof.
  unfold year_1000_start, year_9999_end. intros Ht. unfold broken_down.
  pose proof (civil_from_days_bounds (t / 86400)) as Hciv.
  destruct (civil_from_days (t / 86400)) as [[y m] d].
  assert (Hdays : -354285 <= t / 86400 <= 2932896) by divmod.
  specialize (Hciv Hdays). cbn [tm_year tm_mon tm_mday tm_hour tm_min tm_sec].
  repeat split; try lia; divmod.
Qed.

(** A broken-down time whose members are in range is printed in the
    fixed twenty-character form. *)
Lemma put_time_in_range (b : tm) :
  1000 <= tm_year b + 1900 <= 9999 -> 0 <= tm_mon b + 1 <= 99 ->
  0 <= tm_mday b <= 99 -> 0 <= tm_hour b <= 99 ->
  0 <= tm_min b <= 99 -> 0 <= tm_sec b <= 99 ->
  is_iso8601_utc (put_time b) = true.
Proof.
  intros Hy Hm Hd Hh Hmi Hs. unfold put_time.
  rewrite (decimal_four_digits _ Hy).
  rewrite (two_digits_spec _ Hm), (two_digits_spec _ Hd),
    (two_digits_spec _ Hh), (two_digits_spec _ Hmi), (two_digits_spec _ Hs).
  unfold is_iso8601_utc, iso8601_pattern.
  cbv [String.append matches class_matches].
  rewrite !is_digit_digit_char by divmod.
  reflexivity.
Qed.

Lemma put_time_broken_down (t : Z) :
  year_1000_start <= t <= year_9999_end ->
  is_iso8601_utc (put_time (broken_down t)) = true.
Proof.
  intros Ht. pose proof (broken_down_bounds t Ht) as Hb. cbv zeta in Hb.
  apply put_time_in_range; lia.
Qed.

End TimeFacts.

Example sample_run_calls_host :
  (fun r => (host_calls r.2, monitoring r.1.2 0%nat))
    <$> Sample.started_then_stopped (initial_world Sample.now)
  = Some ([(7%nat, notification_record Sample.env "Mail" "Hello" "World" "2026-10-30T00:00:00Z")],
          Some false).
Proof. reflexivity. Qed.

Example sample_construct_start_stop :
  (fun r => r.1.2) <$> run Sample.env [OpNew [JsFunction 7]; OpStart 0 []; OpStop 0 []] None
                         (initial_world Sample.now)
  = Some Sample.idle.
Proof. reflexivity. Qed.

Example sample_two_monitors :
  (fun r => (r.1.1, host_calls r.2, g_callback r.1.2))
    <$> run Sample.env Sample.two_monitors None (initial_world Sample.now)
  = Some (Returns (Some 1%nat),
          [(8%nat, notification_record Sample.env "Mail" "Hello" "World" "2026-10-30T00:00:00Z")],
          Some 1%nat).
Proof. reflexivity. Qed.

(** [%Y] is not padded or cut: on a C runtime whose [gmtime] converts the
    first second of the year 10000, the year is printed with five digits. *)
Example put_time_year_10000 :
  Time.put_time
    <$> Time.gmtime {| Time.gmtime_min := 0; Time.gmtime_max := 2 ^ 62 |}
          (Time.year_9999_end + 1)
  = Some "10000-01-01T00:00:00Z"%string.
Proof. reflexivity. Qed.

(** ** Running single operations on a live instance *)

Section Runs.

Lemma update_monitor_same (w : World) (this : nat) (m : NotificationMonitor) :
  heap w !! this = Some m -> update_monitor w this m = w.
Proof.
  intros Hm. destruct w as [h n gc gi pe clk]. unfold update_monitor.
  cbn in *. f_equal. by apply insert_id.
Qed.

Lemma update_monitor_twice (w : World) (this : nat)
    (m1 m2 : NotificationMonitor) :
  update_monitor (update_monitor w this m1) this m2 = update_monitor w this m2.
Proof. unfold update_monitor. cbn. f_equal. apply insert_insert_eq. Qed.

Lemma heap_update_monitor (w : World) (this : nat) (m : NotificationMonitor) :
  heap (update_monitor w this m) !! this = Some m.
Proof. cbn. apply lookup_insert_eq. Qed.

Lemma set_isMonitoring_run (w : World) (this : nat) (b : bool)
    (m : NotificationMonitor) :
  heap w !! this = Some m ->
  set_isMonitoring this b w =
    Some (Returns tt,
          update_monitor w this
            {| callback_ := callback_ m; isMonitoring_ := b |}, []).
Proof.
  intros Hm. unfold set_isMonitoring, mbind, exec_bind, load, store.
  rewrite Hm. cbn beta iota. rewrite Hm. reflexivity.
Qed.

Lemma Stop_run (w : World) (this : nat) (info : CallbackInfo)
    (m : NotificationMonitor) :
  heap w !! this = Some m ->
  Stop this info w =
    Some (Returns JsUndefined,
          update_monitor w this
            {| callback_ := callback_ m; isMonitoring_ := false |}, []).
Proof.
  intros Hm. unfold Stop, mbind, exec_bind.
  rewrite (set_isMonitoring_run _ _ _ _ Hm). reflexivity.
Qed.

Lemma Start_run_monitoring (w : World) (this : nat) (info : CallbackInfo)
    (m : NotificationMonitor) :
  heap w !! this = Some m -> isMonitoring_ m = true ->
  Start this info w = Some (Returns JsUndefined, w, []).
Proof.
  intros Hm Hflag. unfold Start, mbind, exec_bind, load.
  rewrite Hm, Hflag. reflexivity.
Qed.

Lemma Start_run_idle (w : World) (this : nat) (info : CallbackInfo)
    (m : NotificationMonitor) :
  heap w !! this = Some m -> isMonitoring_ m = false ->
  Start this info w =
    Some (Returns JsUndefined,
          update_monitor w this
            {| callback_ := callback_ m; isMonitoring_ := true |},
          [EvSetupMonitoring this]).
Proof.
  intros Hm Hflag. unfold Start, mbind, exec_bind, load.
  rewrite Hm, Hflag. cbn [negb]. unfold SetupMonitoring, mbind, exec_bind, emit.
  rewrite (set_isMonitoring_run _ _ _ _ Hm). reflexivity.
Qed.

Lemma monitor_eta (m : NotificationMonitor) :
  {| callback_ := callback_ m; isMonitoring_ := isMonitoring_ m |} = m.
Proof. by destruct m. Qed.

End Runs.

(** ** Start, Stop and the destructor *)

Section Lifecycle.

(** C5: [stop ()] on a live instance always returns [undefined] without
    throwing or calling anything, leaves the monitoring flag false, is
    without effect on an instance that is already idle, and a second
    [stop ()] changes nothing more. *)
Theorem Stop_total_idempotent (w : World) (this : nat)
    (info info' : CallbackInfo) (m : NotificationMonitor) :
  heap w !! this = Some m ->
  exists w1,
    Stop this info w = Some (Returns JsUndefined, w1, []) /\
    monitoring w1 this = Some false /\
    Stop this info' w1 = Some (Returns JsUndefined, w1, []) /\
    (Stop this info;; Stop this info') w = Stop this info w /\
    (isMonitoring_ m = false -> w1 = w).
Proof.
  intros Hm.
  set (m1 := {| callback_ := callback_ m; isMonitoring_ := false |}).
  assert (Hrun : Stop this info w
                 = Some (Returns JsUndefined, update_monitor w this m1, []))
    by exact (Stop_run w this info m Hm).
  assert (Hagain : Stop this info' (update_monitor w this m1)
                   = Some (Returns JsUndefined, update_monitor w this m1, [])).
  { rewrite (Stop_run _ this info' m1 (heap_update_monitor w this m1)).
    cbn [callback_ m1]. by rewrite update_monitor_twice. }
  exists (update_monitor w this m1). repeat split.
  - exact Hrun.
  - unfold monitoring. by rewrite heap_update_monitor.
  - exact Hagain.
  - unfold mbind at 1, exec_bind at 1. rewrite Hrun, Hagain. reflexivity.
  - intros Hidle. apply update_monitor_same. rewrite Hm. f_equal.
    subst m1. rewrite <- Hidle. symmetry. apply monitor_eta.
Qed.

Lemma Stop_total_idempotent_witness :
  heap Sample.active !! 0%nat
  = Some {| callback_ := Some 7%nat; isMonitoring_ := true |} /\
  exists w1,
    Stop 0 [] Sample.active = Some (Returns JsUndefined, w1, []) /\
    monitoring w1 0%nat = Some false /\
    Stop 0 [] w1 = Some (Returns JsUndefined, w1, []) /\
    (Stop 0 [];; Stop 0 []) Sample.active = Stop 0 [] Sample.active /\
    (isMonitoring_ {| callback_ := Some 7%nat; isMonitoring_ := true |} = false ->
     w1 = Sample.active).
Proof.
  split; [reflexivity |].
  apply (Stop_total_idempotent Sample.active 0 [] []). reflexivity.
Defined.

(** C4: [start ()] on a live instance returns [undefined]; on a monitoring
    instance it changes nothing and does not enter [SetupMonitoring]; two
    calls in a row end in the world of one call, with the flag set, and
    enter [SetupMonitoring] once from idle and never from monitoring. *)
Theorem Start_idempotent (w : World) (this : nat)
    (info info' : CallbackInfo) (m : NotificationMonitor) :
  heap w !! this = Some m ->
  exists w1 t1,
    Start this info w = Some (Returns JsUndefined, w1, t1) /\
    monitoring w1 this = Some true /\
    Start this info' w1 = Some (Returns JsUndefined, w1, []) /\
    (Start this info;; Start this info') w
    = Some (Returns JsUndefined, w1, t1) /\
    setup_calls t1 = (if isMonitoring_ m then 0 else 1)%nat /\
    (isMonitoring_ m = true -> w1 = w /\ t1 = []).
Proof.
  intros Hm. destruct (isMonitoring_ m) eqn:Hflag.
  - pose proof (Start_run_monitoring w this info m Hm Hflag) as Hrun.
    pose proof (Start_run_monitoring w this info' m Hm Hflag) as Hagain.
    exists w, []. repeat split; try done.
    + unfold monitoring. by rewrite Hm; cbn; rewrite Hflag.
    + unfold mbind at 1, exec_bind at 1. rewrite Hrun, Hagain. reflexivity.
  - set (m1 := {| callback_ := callback_ m; isMonitoring_ := true |}).
    pose proof (Start_run_idle w this info m Hm Hflag) as Hrun. fold m1 in Hrun.
    assert (Hagain : Start this info' (update_monitor w this m1)
                     = Some (Returns JsUndefined, update_monitor w this m1, []))
      by (apply (Start_run_monitoring _ _ _ m1);
          [apply heap_update_monitor | reflexivity]).
    exists (update_monitor w this m1), [EvSetupMonitoring this].
    repeat split; try done.
    + unfold monitoring. by rewrite heap_update_monitor.
    + unfold mbind at 1, exec_bind at 1. rewrite Hrun, Hagain. reflexivity.
Qed.

Lemma Start_idempotent_witness :
  heap Sample.idle !! 0%nat
  = Some {| callback_ := Some 7%nat; isMonitoring_ := false |} /\
  exists w1 t1,
    Start 0 [] Sample.idle = Some (Returns JsUndefined, w1, t1) /\
    monitoring w1 0%nat = Some true /\
    Start 0 [] w1 = Some (Returns JsUndefined, w1, []) /\
    (Start 0 [];; Start 0 []) Sample.idle
    = Some (Returns JsUndefined, w1, t1) /\
    setup_calls t1 = 1%nat /\
    (false = true -> w1 = Sample.idle /\ t1 = []).
Proof.
  split; [reflexivity |].
  apply (Start_idempotent Sample.idle 0 [] []
           {| callback_ := Some 7%nat; isMonitoring_ := false |}).
  reflexivity.
Defined.

Lemma update_monitor_only_flag (w : World) (this : nat)
    (m : NotificationMonitor) (b : bool) :
  heap w !! this = Some m ->
  only_flag_changed w
    (update_monitor w this {| callback_ := callback_ m; isMonitoring_ := b |})
    this.
Proof.
  intros Hm. unfold only_flag_changed. cbn. repeat split.
  - intros other Hne. by rewrite lookup_insert_ne.
  - by rewrite lookup_insert_eq, Hm.
  - apply dom_insert_lookup_L. by exists m.
Qed.

Lemma only_flag_changed_refl (w : World) (this : nat) :
  only_flag_changed w w this.
Proof. unfold only_flag_changed. tauto. Qed.

(** C7: [Start] and [Stop] on a live instance change nothing in the
    process except the monitoring flag of that instance: its callback,
    every other instance, the set of allocated instances, both globals,
    the pending exception and the clock are as before; no host function
    is called, and the only event is the entry into [SetupMonitoring],
    which itself only sets the flag. *)
Theorem Start_Stop_frame (w : World) (this : nat) (info : CallbackInfo)
    (m : NotificationMonitor) :
  heap w !! this = Some m ->
  (exists w1 t1,
      Start this info w = Some (Returns JsUndefined, w1, t1) /\
      only_flag_changed w w1 this /\ host_calls t1 = [] /\
      (t1 = [] \/ t1 = [EvSetupMonitoring this])) /\
  (exists w2,
      Stop this info w = Some (Returns JsUndefined, w2, []) /\
      only_flag_changed w w2 this) /\
  (exists w3,
      SetupMonitoring this w = Some (Returns tt, w3, [EvSetupMonitoring this]) /\
      only_flag_changed w w3 this).
Proof.
  intros Hm. split; [| split].
  - destruct (isMonitoring_ m) eqn:Hflag.
    + exists w, []. rewrite (Start_run_monitoring w this info m Hm Hflag).
      split; [reflexivity |]. split; [apply only_flag_changed_refl |].
      split; [reflexivity | by left].
    + eexists _, _. rewrite (Start_run_idle w this info m Hm Hflag).
      split; [reflexivity |]. split; [by apply update_monitor_only_flag |].
      split; [reflexivity | by right].
  - eexists. rewrite (Stop_run w this info m Hm).
    split; [reflexivity | by apply update_monitor_only_flag].
  - eexists. unfold SetupMonitoring, mbind, exec_bind, emit.
    rewrite (set_isMonitoring_run _ _ _ _ Hm).
    split; [reflexivity | by apply update_monitor_only_flag].
Qed.

Lemma Start_Stop_frame_witness :
  heap Sample.idle !! 0%nat
  = Some {| callback_ := Some 7%nat; isMonitoring_ := false |} /\
  (exists w1 t1,
      Start 0 [] Sample.idle = Some (Returns JsUndefined, w1, t1) /\
      only_flag_changed Sample.idle w1 0 /\ host_calls t1 = [] /\
      (t1 = [] \/ t1 = [EvSetupMonitoring 0])) /\
  (exists w2,
      Stop 0 [] Sample.idle = Some (Returns JsUndefined, w2, []) /\
      only_flag_changed Sample.idle w2 0) /\
  (exists w3,
      SetupMonitoring 0 Sample.idle
      = Some (Returns tt, w3, [EvSetupMonitoring 0]) /\
      only_flag_changed Sample.idle w3 0).
Proof.
  split; [reflexivity |].
  apply (Start_Stop_frame Sample.idle 0 []
           {| callback_ := Some 7%nat; isMonitoring_ := false |}).
  reflexivity.
Defined.

(** C8, as the code has it: the destructor of an idle instance leaves the
    world as it is and calls nothing.  On a monitoring instance it builds
    the argument of [Stop] for a null environment, which aborts the
    process before [Stop] is entered: the flag is not cleared and the
    instance is not released. *)
Theorem destructor_aborts_when_monitoring (w : World) (this : nat)
    (m : NotificationMonitor) :
  heap w !! this = Some m ->
  (isMonitoring_ m = false -> destructor this w = Some (Returns tt, w, [])) /\
  (isMonitoring_ m = true ->
   destructor this w = None /\ delete_instance this w = None).
Proof.
  intros Hm. split; intros Hflag.
  - unfold destructor, mbind, exec_bind, load. by rewrite Hm, Hflag.
  - assert (Habort : destructor this w = None).
    { unfold destructor, mbind at 1, exec_bind at 1, load.
      by rewrite Hm, Hflag. }
    split; [exact Habort |].
    unfold delete_instance, mbind, exec_bind. by rewrite Habort.
Qed.

Lemma destructor_aborts_when_monitoring_witness :
  heap Sample.active !! 0%nat
  = Some {| callback_ := Some 7%nat; isMonitoring_ := true |} /\
  (true = false ->
   destructor 0 Sample.active = Some (Returns tt, Sample.active, [])) /\
  (true = true ->
   destructor 0 Sample.active = None /\ delete_instance 0 Sample.active = None).
Proof.
  split; [reflexivity |].
  apply (destructor_aborts_when_monitoring Sample.active 0
           {| callback_ := Some 7%nat; isMonitoring_ := true |}).
  reflexivity.
Defined.

End Lifecycle.

(** ** Construction *)

Section Construction.

(** The constructor's test fails exactly when the first argument is
    present and is a function. *)
Lemma constructor_test (info : CallbackInfo) :
  (Length info <? 1) || negb (IsFunction (arg info 0))
  = negb (supplies_callback info).
Proof.
  destruct info as [| v rest].
  - reflexivity.
  - unfold Length. cbn [length arg nth supplies_callback].
    destruct (Z.ltb_spec (Z.of_nat (S (length rest))) 1) as [Hlt | _]; [lia |].
    by destruct v.
Qed.

Lemma supplies_callback_false (info : CallbackInfo) :
  supplies_callback info = false <->
  info = [] \/ exists v rest, info = v :: rest /\ IsFunction v = false.
Proof.
  destruct info as [| v rest]; cbn.
  - split; [by left | done].
  - split.
    + intros Hv. right. exists v, rest. by destruct v.
    + intros [Hnil | (v' & rest' & Heq & Hfun)]; [done |].
      injection Heq as -> ->. by destruct v'.
Qed.

Lemma construct_run_function (w : World) (cb : nat) (rest : list JsValue) :
  construct (JsFunction cb :: rest) w
  = Some (Returns (next_address w), constructed w cb, []).
Proof.
  unfold construct. rewrite constructor_test. cbn [supplies_callback negb arg nth].
  unfold allocate, set_callback, set_globals, load, store, mret, exec_ret.
  unfold mbind, exec_bind.
  cbn beta iota zeta. cbn [heap]. rewrite lookup_insert_eq.
  cbn beta iota zeta. unfold update_monitor. cbn [heap].
  rewrite lookup_insert_eq.
  cbn [heap next_address g_callback g_monitorInstance pending_exception
       system_clock isMonitoring_ app].
  unfold constructed. by rewrite insert_insert_eq.
Qed.

Lemma construct_run_rejected (w : World) (info : CallbackInfo) :
  supplies_callback info = false ->
  construct info w = Some (Returns (next_address w), rejected w, []).
Proof.
  intros Hinfo. unfold construct. rewrite constructor_test, Hinfo.
  reflexivity.
Qed.

(** C6: construction raises the type error exactly when the first
    argument is missing or is not a function; with a function as first
    argument it completes and raises nothing.  In both cases the
    constructor returns. *)
Theorem construct_raises_iff_no_callback (w : World) (info : CallbackInfo) :
  pending_exception w = None ->
  exists w1,
    construct info w = Some (Returns (next_address w), w1, []) /\
    pending_exception w1
    = (if supplies_callback info then None
       else Some (TypeError "Callback function required")) /\
    (pending_exception w1 = Some (TypeError "Callback function required") <->
     info = [] \/ exists v rest, info = v :: rest /\ IsFunction v = false).
Proof.
  intros Hnone. pose proof (supplies_callback_false info) as Hspec.
  destruct (supplies_callback info) eqn:Hinfo.
  - destruct info as [| [] rest]; try discriminate.
    exists (constructed w f). rewrite construct_run_function.
    cbn [pending_exception constructed]. rewrite Hnone.
    split; [reflexivity |]. split; [reflexivity |].
    rewrite <- Hspec. split; discriminate.
  - exists (rejected w). rewrite (construct_run_rejected w info Hinfo).
    split; [reflexivity |]. split; [reflexivity |].
    rewrite <- Hspec. done.
Qed.

Lemma construct_raises_iff_no_callback_witness :
  pending_exception (initial_world 0) = None /\
  exists w1,
    construct [JsString "f"; JsFunction 7] (initial_world 0)
    = Some (Returns 0%nat, w1, []) /\
    pending_exception w1 = Some (TypeError "Callback function required") /\
    (pending_exception w1 = Some (TypeError "Callback function required") <->
     [JsString "f"; JsFunction 7] = [] \/
     exists v rest, [JsString "f"; JsFunction 7] = v :: rest /\
                    IsFunction v = false).
Proof.
  split; [reflexivity |].
  apply (construct_raises_iff_no_callback (initial_world 0)
           [JsString "f"; JsFunction 7]).
  reflexivity.
Defined.

(** C10: a construction that fails raises the type error and returns
    before it stores anything: both globals are as before, every
    instance that existed is as before, and the new instance has an
    empty callback and a false monitoring flag. *)
Theorem construct_failure_leaves_globals (w : World) (info : CallbackInfo) :
  supplies_callback info = false ->
  exists w1,
    construct info w = Some (Returns (next_address w), w1, []) /\
    pending_exception w1 = Some (TypeError "Callback function required") /\
    g_monitorInstance w1 = g_monitorInstance w /\
    g_callback w1 = g_callback w /\
    heap w1 !! next_address w
    = Some {| callback_ := None; isMonitoring_ := false |} /\
    (forall other, other <> next_address w ->
                   heap w1 !! other = heap w !! other).
Proof.
  intros Hinfo. exists (rejected w).
  rewrite (construct_run_rejected w info Hinfo). cbn.
  repeat split.
  - apply lookup_insert_eq.
  - intros other Hne. by rewrite lookup_insert_ne.
Qed.

Lemma construct_failure_leaves_globals_witness :
  supplies_callback [] = false /\
  exists w1,
    construct [] Sample.active = Some (Returns 1%nat, w1, []) /\
    pending_exception w1 = Some (TypeError "Callback function required") /\
    g_monitorInstance w1 = Some 0%nat /\
    g_callback w1 = Some 0%nat /\
    heap w1 !! 1%nat = Some {| callback_ := None; isMonitoring_ := false |} /\
    (forall other, other <> 1%nat ->
                   heap w1 !! other = heap Sample.active !! other).
Proof.
  split; [reflexivity |].
  apply (construct_failure_leaves_globals Sample.active []). reflexivity.
Defined.

End Construction.

(** ** Delivery of a notification *)

Section Delivery.
Variable env : Environment.

Lemma format_utc_run (w : World) (t : Z) (b : Time.tm) :
  Time.gmtime (crt env) t = Some b ->
  format_utc env t w = Some (Returns (Time.put_time b), w, []).
Proof. intros Hb. unfold format_utc. rewrite Hb. reflexivity. Qed.

(** On a live instance that holds a callback, and at a clock reading the
    C runtime converts, the host function is called once with the
    record, the exception it may raise is swallowed, and the world is as
    before.  The monitoring flag is not read. *)
Lemma OnNotificationReceived_run (w : World) (this : nat)
    (appName title body : string) (m : NotificationMonitor) (cb : nat)
    (b : Time.tm) :
  heap w !! this = Some m -> callback_ m = Some cb ->
  Time.gmtime (crt env) (system_clock w) = Some b ->
  OnNotificationReceived env this appName title body w
  = Some (Returns tt, w,
          [EvHostCall cb
             (notification_record env appName title body (Time.put_time b))]).
Proof.
  intros Hm Hcb Hb. unfold OnNotificationReceived.
  unfold mbind at 1, exec_bind at 1, load. rewrite Hm, Hcb.
  unfold try_catch, system_clock_now, get_world, Call, emit, throw, mret,
    exec_ret.
  unfold mbind, exec_bind. cbn beta iota zeta.
  rewrite (format_utc_run w _ b Hb). fold (notification_record env appName title body (Time.put_time b)).
  by destruct (host_throws env cb _).
Qed.

(** Conversely these are the only circumstances in which it completes. *)
Lemma OnNotificationReceived_inv (w w1 : World) (this : nat)
    (appName title body : string) (c : Completion unit) (t : list Event) :
  OnNotificationReceived env this appName title body w = Some (c, w1, t) ->
  exists m cb b,
    heap w !! this = Some m /\ callback_ m = Some cb /\
    Time.gmtime (crt env) (system_clock w) = Some b /\
    c = Returns tt /\ w1 = w /\
    t = [EvHostCall cb
           (notification_record env appName title body (Time.put_time b))].
Proof.
  intros Hrun.
  destruct (heap w !! this) as [m |] eqn:Hm.
  2: { unfold OnNotificationReceived, mbind, exec_bind, load in Hrun.
       by rewrite Hm in Hrun. }
  destruct (callback_ m) as [cb |] eqn:Hcb.
  2: { unfold OnNotificationReceived, mbind, exec_bind, load in Hrun.
       by rewrite Hm, Hcb in Hrun. }
  destruct (Time.gmtime (crt env) (system_clock w)) as [b |] eqn:Hb.
  - rewrite (OnNotificationReceived_run w this _ _ _ m cb b Hm Hcb Hb) in Hrun.
    injection Hrun as <- <- <-. by exists m, cb, b.
  - unfold OnNotificationReceived in Hrun.
    unfold mbind at 1, exec_bind at 1, load in Hrun. rewrite Hm, Hcb in Hrun.
    unfold try_catch, system_clock_now, get_world, mret, exec_ret in Hrun.
    unfold mbind, exec_bind, format_utc in Hrun. cbn beta iota zeta in Hrun.
    by rewrite Hb in Hrun.
Qed.

(** Text that matches a pattern whose literals are seven-bit is
    seven-bit: digits are. *)
Lemma matches_seven_bit (p : list Time.CharClass) (s : string) :
  forallb (fun k => match k with
                    | Time.Digit => true
                    | Time.Lit c => (N_of_ascii c <? 128)%N
                    end) p = true ->
  Time.matches p s = true -> is_seven_bit s = true.
Proof.
  revert s. induction p as [| k p IH]; intros s Hp Hs.
  - destruct s; [reflexivity | discriminate].
  - destruct s as [| c s]; [discriminate |].
    cbn [forallb] in Hp. apply andb_prop in Hp as [Hk Hp].
    cbn [Time.matches] in Hs. apply andb_prop in Hs as [Hc Hs].
    cbn [is_seven_bit]. rewrite (IH s Hp Hs), andb_true_r.
    destruct k as [| c']; cbn [Time.class_matches] in Hc.
    + unfold Time.is_digit in Hc. apply andb_prop in Hc as [_ Hc].
      apply N.leb_le in Hc. apply N.ltb_lt. lia.
    + destruct (ascii_dec c c') as [-> | _]; [exact Hk | discriminate].
Qed.

Lemma iso8601_seven_bit (s : string) :
  Time.is_iso8601_utc s = true -> is_seven_bit s = true.
Proof. apply matches_seven_bit. reflexivity. Qed.

Lemma String_New_seven_bit (s : string) :
  is_seven_bit s = true -> String_New env s = JsString s.
Proof. intros Hs. unfold String_New. by rewrite Hs. Qed.

Lemma dom_notification_record (appName title body timestamp : string) :
  dom (notification_record env appName title body timestamp) = record_fields.
Proof.
  unfold notification_record, record_fields.
  rewrite !dom_insert_L, dom_empty_L. set_solver.
Qed.

(** C1, as the code has it: [Stop] clears the flag and nothing else, and
    a notification that reaches [OnNotificationReceived] afterwards is
    delivered all the same, because the flag is not read there: on an
    instance that holds a callback, at a clock reading the C runtime
    converts, the host function is called exactly once with the record. *)
Theorem event_after_Stop_is_delivered (w : World) (this : nat)
    (info : CallbackInfo) (appName title body : string)
    (m : NotificationMonitor) (cb : nat) (b : Time.tm) :
  heap w !! this = Some m -> callback_ m = Some cb ->
  Time.gmtime (crt env) (system_clock w) = Some b ->
  exists w1,
    Stop this info w = Some (Returns JsUndefined, w1, []) /\
    monitoring w1 this = Some false /\
    OnNotificationReceived env this appName title body w1
    = Some (Returns tt, w1,
            [EvHostCall cb
               (notification_record env appName title body (Time.put_time b))]).
Proof.
  intros Hm Hcb Hb. eexists. rewrite (Stop_run w this info m Hm).
  split; [reflexivity |]. split.
  - unfold monitoring. by rewrite heap_update_monitor.
  - apply (OnNotificationReceived_run _ this _ _ _
             {| callback_ := callback_ m; isMonitoring_ := false |} cb b).
    + apply heap_update_monitor.
    + exact Hcb.
    + exact Hb.
Qed.

(** C2: every record that [OnNotificationReceived] hands to a host
    function has exactly the fields [appName], [title], [body] and
    [timestamp], each holding a string; the first three are what
    [Napi::String::New] makes of the strings of the event, which for
    seven-bit text are the strings themselves. *)
Theorem delivered_record_shape (w w1 : World) (this : nat)
    (appName title body : string) (c : Completion unit) (t : list Event)
    (f : nat) (payload : JsRecord) :
  OnNotificationReceived env this appName title body w = Some (c, w1, t) ->
  (f, payload) ∈ host_calls t ->
  dom payload = record_fields /\
  (forall k, k ∈ record_fields ->
             exists s, payload !! k = Some (JsString s)) /\
  (forall k, k ∉ record_fields -> payload !! k = None) /\
  payload !! "appName" = Some (String_New env appName) /\
  payload !! "title" = Some (String_New env title) /\
  payload !! "body" = Some (String_New env body) /\
  (is_seven_bit appName = true -> is_seven_bit title = true ->
   is_seven_bit body = true ->
   payload !! "appName" = Some (JsString appName) /\
   payload !! "title" = Some (JsString title) /\
   payload !! "body" = Some (JsString body)).
Proof.
  intros Hrun Hin.
  apply OnNotificationReceived_inv in Hrun
    as (m & cb & b & _ & _ & _ & _ & _ & ->).
  cbn in Hin. apply list_elem_of_singleton in Hin. injection Hin as -> ->.
  split; [apply dom_notification_record |]. split; [| split].
  - intros k Hk. unfold record_fields in Hk.
    rewrite !elem_of_union, !elem_of_singleton in Hk.
    destruct Hk as [[[-> | ->] | ->] | ->]; eexists; reflexivity.
  - intros k Hk. apply not_elem_of_dom.
    by rewrite dom_notification_record.
  - split; [reflexivity |]. split; [reflexivity |]. split; [reflexivity |].
    intros Ha Ht Hb. rewrite <- (String_New_seven_bit appName Ha),
      <- (String_New_seven_bit title Ht),
      <- (String_New_seven_bit body Hb). done.
Qed.

(** C3: the timestamp of every delivered record is the clock reading at
    the time of the call, converted by [gmtime] and printed by
    [put_time]; the strings of the event play no part in it.  On a C
    runtime whose [gmtime] converts only times of the years 1000 to 9999
    it has the form [dddd-dd-ddTdd:dd:ddZ]. *)
Theorem delivered_timestamp_format (w w1 : World) (this : nat)
    (appName title body : string) (c : Completion unit) (t : list Event)
    (f : nat) (payload : JsRecord) :
  Time.year_1000_start <= Time.gmtime_min (crt env) ->
  Time.gmtime_max (crt env) <= Time.year_9999_end ->
  OnNotificationReceived env this appName title body w = Some (c, w1, t) ->
  (f, payload) ∈ host_calls t ->
  exists ts,
    payload !! "timestamp" = Some (JsString ts) /\
    Time.put_time <$> Time.gmtime (crt env) (system_clock w) = Some ts /\
    Time.is_iso8601_utc ts = true.
Proof.
  intros Hmin Hmax Hrun Hin.
  apply OnNotificationReceived_inv in Hrun
    as (m & cb & b & _ & _ & Hb & _ & _ & ->).
  cbn in Hin. apply list_elem_of_singleton in Hin. injection Hin as -> ->.
  assert (Hiso : Time.is_iso8601_utc (Time.put_time b) = true).
  { unfold Time.gmtime in Hb.
    destruct (Z.leb_spec (Time.gmtime_min (crt env)) (system_clock w));
      destruct (Z.leb_spec (system_clock w) (Time.gmtime_max (crt env)));
      try discriminate.
    injection Hb as <-. apply put_time_broken_down. lia. }
  exists (Time.put_time b). split.
  - rewrite <- (String_New_seven_bit (Time.put_time b)); [reflexivity |].
    by apply iso8601_seven_bit.
  - rewrite Hb. split; [reflexivity | exact Hiso].
Qed.

End Delivery.

(** C1, as the claim has it, fails: the monitor at address 0 is idle after
    [Stop], and the notification that arrives next is handed to its host
    function 7. *)
Lemma event_after_Stop_not_dropped :
  Stop 0 [] Sample.active = Some (Returns JsUndefined, Sample.idle, []) /\
  monitoring Sample.idle 0%nat = Some false /\
  (fun r => host_calls r.2)
    <$> call_g_callback Sample.env "Mail" "Hello" "World" Sample.idle
  = Some [(7%nat,
           notification_record Sample.env "Mail" "Hello" "World" "2026-10-30T00:00:00Z")].
Proof. repeat split. Qed.

Lemma event_after_Stop_is_delivered_witness :
  heap Sample.active !! 0%nat
  = Some {| callback_ := Some 7%nat; isMonitoring_ := true |} /\
  Time.gmtime (crt Sample.env) (system_clock Sample.active)
  = Some (Time.broken_down Sample.now) /\
  exists w1,
    Stop 0 [] Sample.active = Some (Returns JsUndefined, w1, []) /\
    monitoring w1 0%nat = Some false /\
    OnNotificationReceived Sample.env 0 "Mail" "Hello" "World" w1
    = Some (Returns tt, w1,
            [EvHostCall 7
               (notification_record Sample.env "Mail" "Hello" "World"
                  (Time.put_time (Time.broken_down Sample.now)))]).
Proof.
  split; [reflexivity |]. split; [reflexivity |].
  apply (event_after_Stop_is_delivered Sample.env Sample.active 0 []
           "Mail" "Hello" "World"
           {| callback_ := Some 7%nat; isMonitoring_ := true |} 7
           (Time.broken_down Sample.now)); reflexivity.
Defined.

Lemma delivered_record_shape_witness :
  OnNotificationReceived Sample.env 0 "Mail" "" "" Sample.idle
  = Some (Returns tt, Sample.idle,
          [EvHostCall 7
             (notification_record Sample.env "Mail" "" "" "2026-10-30T00:00:00Z")]) /\
  (7%nat, notification_record Sample.env "Mail" "" "" "2026-10-30T00:00:00Z")
  ∈ host_calls
      [EvHostCall 7 (notification_record Sample.env "Mail" "" "" "2026-10-30T00:00:00Z")] /\
  dom (notification_record Sample.env "Mail" "" "" "2026-10-30T00:00:00Z")
  = record_fields /\
  (forall k, k ∈ record_fields ->
             exists s,
               notification_record Sample.env "Mail" "" "" "2026-10-30T00:00:00Z" !! k
               = Some (JsString s)) /\
  (forall k, k ∉ record_fields ->
             notification_record Sample.env "Mail" "" "" "2026-10-30T00:00:00Z" !! k
             = None) /\
  notification_record Sample.env "Mail" "" "" "2026-10-30T00:00:00Z" !! "appName"
  = Some (String_New Sample.env "Mail") /\
  notification_record Sample.env "Mail" "" "" "2026-10-30T00:00:00Z" !! "title"
  = Some (String_New Sample.env "") /\
  notification_record Sample.env "Mail" "" "" "2026-10-30T00:00:00Z" !! "body"
  = Some (String_New Sample.env "") /\
  (is_seven_bit "Mail" = true -> is_seven_bit "" = true ->
   is_seven_bit "" = true ->
   notification_record Sample.env "Mail" "" "" "2026-10-30T00:00:00Z"
     !! "appName" = Some (JsString "Mail") /\
   notification_record Sample.env "Mail" "" "" "2026-10-30T00:00:00Z"
     !! "title" = Some (JsString "") /\
   notification_record Sample.env "Mail" "" "" "2026-10-30T00:00:00Z"
     !! "body" = Some (JsString "")).
Proof.
  pose (payload := notification_record Sample.env "Mail" "" "" "2026-10-30T00:00:00Z").
  assert (Hrun : OnNotificationReceived Sample.env 0 "Mail" "" "" Sample.idle
                 = Some (Returns tt, Sample.idle, [EvHostCall 7 payload]))
    by reflexivity.
  assert (Hin : (7%nat, payload) ∈ host_calls [EvHostCall 7 payload])
    by (apply list_elem_of_singleton; reflexivity).
  split; [exact Hrun |]. split; [exact Hin |].
  exact (delivered_record_shape Sample.env Sample.idle Sample.idle 0
           "Mail" "" "" (Returns tt) [EvHostCall 7 payload] 7 payload
           Hrun Hin).
Defined.

Lemma delivered_timestamp_format_witness :
  Time.year_1000_start <= Time.gmtime_min (crt Sample.env) /\
  Time.gmtime_max (crt Sample.env) <= Time.year_9999_end /\
  OnNotificationReceived Sample.env 0 "Mail" "Hello" "World" Sample.idle
  = Some (Returns tt, Sample.idle,
          [EvHostCall 7
             (notification_record Sample.env "Mail" "Hello" "World"
                "2026-10-30T00:00:00Z")]) /\
  (7%nat, notification_record Sample.env "Mail" "Hello" "World" "2026-10-30T00:00:00Z")
  ∈ host_calls
      [EvHostCall 7
         (notification_record Sample.env "Mail" "Hello" "World" "2026-10-30T00:00:00Z")] /\
  exists ts,
    notification_record Sample.env "Mail" "Hello" "World" "2026-10-30T00:00:00Z"
      !! "timestamp" = Some (JsString ts) /\
    Time.put_time <$> Time.gmtime (crt Sample.env) (system_clock Sample.idle)
    = Some ts /\
    Time.is_iso8601_utc ts = true.
Proof.
  pose (payload :=
          notification_record Sample.env "Mail" "Hello" "World" "2026-10-30T00:00:00Z").
  assert (Hmin : Time.year_1000_start <= Time.gmtime_min (crt Sample.env))
    by (vm_compute; discriminate).
  assert (Hmax : Time.gmtime_max (crt Sample.env) <= Time.year_9999_end)
    by (vm_compute; discriminate).
  assert (Hrun : OnNotificationReceived Sample.env 0 "Mail" "Hello" "World"
                   Sample.idle
                 = Some (Returns tt, Sample.idle, [EvHostCall 7 payload]))
    by reflexivity.
  assert (Hin : (7%nat, payload) ∈ host_calls [EvHostCall 7 payload])
    by (apply list_elem_of_singleton; reflexivity).
  split; [exact Hmin |]. split; [exact Hmax |].
  split; [exact Hrun |]. split; [exact Hin |].
  exact (delivered_timestamp_format Sample.env Sample.idle Sample.idle 0
           "Mail" "Hello" "World" (Returns tt) [EvHostCall 7 payload] 7 payload
           Hmin Hmax Hrun Hin).
Defined.

(** ** The process-wide globals *)

Create HintDb globals.

Section Globals.
Variable env : Environment.

Lemma keeps_globals_ret {A : Type} (a : A) : keeps_globals (mret a).
Proof. intros w c w1 t Hrun. by injection Hrun as <- <- <-. Qed.

Lemma keeps_globals_bind {A B : Type} (e : Exec A) (k : A -> Exec B) :
  keeps_globals e -> (forall a, keeps_globals (k a)) ->
  keeps_globals (e ≫= k).
Proof.
  intros He Hk w c w1 t Hrun. unfold mbind, exec_bind in Hrun.
  destruct (e w) as [[[[a | ex] w0] t0] |] eqn:Hew; [| | discriminate].
  - destruct (k a w0) as [[[c' w2] t2] |] eqn:Hkw; [| discriminate].
    injection Hrun as <- <- <-.
    rewrite (Hk a _ _ _ _ Hkw). exact (He _ _ _ _ Hew).
  - injection Hrun as <- <- <-. exact (He _ _ _ _ Hew).
Qed.

Lemma keeps_globals_try_catch {A : Type} (e : Exec A)
    (h : CppException -> Exec A) :
  keeps_globals e -> (forall ex, keeps_globals (h ex)) ->
  keeps_globals (try_catch e h).
Proof.
  intros He Hh w c w1 t Hrun. unfold try_catch in Hrun.
  destruct (e w) as [[[[a | ex] w0] t0] |] eqn:Hew; [| | discriminate].
  - injection Hrun as <- <- <-. exact (He _ _ _ _ Hew).
  - destruct (h ex w0) as [[[c' w2] t2] |] eqn:Hhw; [| discriminate].
    injection Hrun as <- <- <-.
    rewrite (Hh ex _ _ _ _ Hhw). exact (He _ _ _ _ Hew).
Qed.

Lemma keeps_globals_crash {A : Type} : keeps_globals (@crash A).
Proof. intros w c w1 t Hrun. discriminate. Qed.

Lemma keeps_globals_throw {A : Type} (ex : CppException) :
  keeps_globals (@throw A ex).
Proof. intros w c w1 t Hrun. by injection Hrun as <- <- <-. Qed.

Lemma keeps_globals_emit (e : Event) : keeps_globals (emit e).
Proof. intros w c w1 t Hrun. by injection Hrun as <- <- <-. Qed.

Lemma keeps_globals_get_world : keeps_globals get_world.
Proof. intros w c w1 t Hrun. by injection Hrun as <- <- <-. Qed.

Lemma keeps_globals_load (this : nat) : keeps_globals (load this).
Proof.
  intros w c w1 t Hrun. unfold load in Hrun.
  destruct (heap w !! this); [| discriminate]. by injection Hrun as <- <- <-.
Qed.

Lemma keeps_globals_store (this : nat) (m : NotificationMonitor) :
  keeps_globals (store this m).
Proof.
  intros w c w1 t Hrun. unfold store in Hrun.
  destruct (heap w !! this); [| discriminate]. by injection Hrun as <- <- <-.
Qed.

Lemma keeps_globals_deallocate (this : nat) : keeps_globals (deallocate this).
Proof.
  intros w c w1 t Hrun. unfold deallocate in Hrun.
  destruct (heap w !! this); [| discriminate]. by injection Hrun as <- <- <-.
Qed.

Lemma keeps_globals_set_clock (now : Z) : keeps_globals (set_clock now).
Proof. intros w c w1 t Hrun. by injection Hrun as <- <- <-. Qed.

Lemma keeps_globals_format_utc (now : Z) : keeps_globals (format_utc env now).
Proof.
  unfold format_utc. destruct (Time.gmtime (crt env) now).
  - apply keeps_globals_ret.
  - apply keeps_globals_crash.
Qed.

Hint Resolve keeps_globals_ret keeps_globals_bind keeps_globals_try_catch
  keeps_globals_crash keeps_globals_throw keeps_globals_emit
  keeps_globals_get_world keeps_globals_load keeps_globals_store
  keeps_globals_deallocate keeps_globals_set_clock keeps_globals_format_utc
  : globals.

Ltac keeps :=
  repeat first
    [ progress intros
    | apply keeps_globals_bind
    | apply keeps_globals_try_catch
    | match goal with
      | |- keeps_globals (if ?b then _ else _) => destruct b
      | |- keeps_globals (match ?o with Some _ => _ | None => _ end) =>
          destruct o
      end
    | solve [auto with globals] ].

Lemma keeps_globals_set_isMonitoring (this : nat) (b : bool) :
  keeps_globals (set_isMonitoring this b).
Proof. unfold set_isMonitoring. keeps. Qed.

Lemma keeps_globals_Stop (this : nat) (info : CallbackInfo) :
  keeps_globals (Stop this info).
Proof. unfold Stop. pose proof keeps_globals_set_isMonitoring. keeps. Qed.

Lemma keeps_globals_Start (this : nat) (info : CallbackInfo) :
  keeps_globals (Start this info).
Proof.
  unfold Start, SetupMonitoring. pose proof keeps_globals_set_isMonitoring.
  keeps.
Qed.

Lemma keeps_globals_delete_instance (this : nat) :
  keeps_globals (delete_instance this).
Proof.
  unfold delete_instance, destructor. pose proof keeps_globals_Stop. keeps.
Qed.

Lemma keeps_globals_OnNotificationReceived (this : nat)
    (appName title body : string) :
  keeps_globals (OnNotificationReceived env this appName title body).
Proof. unfold OnNotificationReceived, system_clock_now, Call. keeps. Qed.

Lemma keeps_globals_call_g_callback (appName title body : string) :
  keeps_globals (call_g_callback env appName title body).
Proof.
  unfold call_g_callback. pose proof keeps_globals_OnNotificationReceived.
  keeps.
Qed.

Lemma globals_follow_kept (w w1 : World) (latest : option nat) :
  globals_of w1 = globals_of w -> globals_follow w latest ->
  globals_follow w1 latest.
Proof.
  unfold globals_of, globals_follow. intros Heq (Hi & Hc & He).
  injection Heq as -> -> ->. done.
Qed.

(** One call of the host keeps the globals on the latest instance. *)
Lemma perform_globals_follow (op : Op) (w w1 : World)
    (latest latest1 : option nat) (t : list Event) :
  globals_follow w latest ->
  perform env op latest w = Some (Returns latest1, w1, t) ->
  globals_follow w1 latest1.
Proof.
  intros Hinv Hrun. destruct op as [info | this info | this info | this
                                   | a ti b | this a ti b | now].
  - cbn [perform] in Hrun. unfold mbind, exec_bind in Hrun.
    destruct Hinv as (Hi & Hc & He).
    destruct (supplies_callback info) eqn:Hinfo.
    + destruct info as [| [] rest]; try discriminate.
      rewrite construct_run_function in Hrun.
      unfold take_pending_exception, mret, exec_ret in Hrun.
      cbn [pending_exception constructed] in Hrun. rewrite He in Hrun.
      injection Hrun as <- <- <-. done.
    + rewrite (construct_run_rejected w info Hinfo) in Hrun.
      injection Hrun as <- <- <-. done.
  - cbn [perform] in Hrun. unfold mbind, exec_bind in Hrun.
    destruct (Start this info w) as [[[[r | ex] w0] t0] |] eqn:Hop;
      try discriminate.
    injection Hrun as <- <- <-.
    exact (globals_follow_kept _ _ _ (keeps_globals_Start _ _ _ _ _ _ Hop) Hinv).
  - cbn [perform] in Hrun. unfold mbind, exec_bind in Hrun.
    destruct (Stop this info w) as [[[[r | ex] w0] t0] |] eqn:Hop;
      try discriminate.
    injection Hrun as <- <- <-.
    exact (globals_follow_kept _ _ _ (keeps_globals_Stop _ _ _ _ _ _ Hop) Hinv).
  - cbn [perform] in Hrun. unfold mbind at 1, exec_bind at 1 in Hrun.
    destruct (delete_instance this w) as [[[[r | ex] w0] t0] |] eqn:Hop;
      try discriminate.
    injection Hrun as <- <- <-.
    exact (globals_follow_kept _ _ _
             (keeps_globals_delete_instance _ _ _ _ _ Hop) Hinv).
  - cbn [perform] in Hrun. unfold mbind at 1, exec_bind at 1 in Hrun.
    destruct (call_g_callback env a ti b w) as [[[[r | ex] w0] t0] |] eqn:Hop;
      try discriminate.
    injection Hrun as <- <- <-.
    exact (globals_follow_kept _ _ _
             (keeps_globals_call_g_callback _ _ _ _ _ _ _ Hop) Hinv).
  - cbn [perform] in Hrun. unfold mbind at 1, exec_bind at 1 in Hrun.
    destruct (OnNotificationReceived env this a ti b w)
      as [[[[r | ex] w0] t0] |] eqn:Hop; try discriminate.
    injection Hrun as <- <- <-.
    exact (globals_follow_kept _ _ _
             (keeps_globals_OnNotificationReceived _ _ _ _ _ _ _ _ Hop) Hinv).
  - cbn [perform] in Hrun. injection Hrun as <- <- <-. exact Hinv.
Qed.

Lemma run_globals_follow (ops : list Op) (w w1 : World)
    (latest latest1 : option nat) (t : list Event) :
  globals_follow w latest ->
  run env ops latest w = Some (Returns latest1, w1, t) ->
  globals_follow w1 latest1.
Proof.
  revert w latest t. induction ops as [| op ops IH]; intros w latest t Hinv Hrun.
  - cbn [run] in Hrun. by injection Hrun as <- <- <-.
  - cbn [run] in Hrun. unfold mbind, exec_bind in Hrun.
    destruct (perform env op latest w) as [[[[l | ex] w0] t0] |] eqn:Hop;
      try discriminate.
    destruct (run env ops l w0) as [[[c' w2] t2] |] eqn:Hrest;
      try discriminate.
    injection Hrun as -> <- <-.
    exact (IH _ _ _ (perform_globals_follow _ _ _ _ _ _ Hinv Hop) Hrest).
Qed.

(** C9: after every program of the host, both globals refer to the
    instance of the latest successful construction (to none before the
    first).  A further successful construction moves both to the new
    instance.  A notification that arrives through [g_callback] reaches
    that instance only: at most one host function is called, and it is the
    callback of that instance. *)
Theorem globals_refer_to_latest_instance (now : Z) (ops : list Op)
    (w : World) (latest : option nat) (t : list Event) :
  run env ops None (initial_world now) = Some (Returns latest, w, t) ->
  g_monitorInstance w = latest /\ g_callback w = latest /\
  (forall cb rest,
      exists w1,
        perform env (OpNew (JsFunction cb :: rest)) latest w
        = Some (Returns (Some (next_address w)), w1, []) /\
        g_monitorInstance w1 = Some (next_address w) /\
        g_callback w1 = Some (next_address w)) /\
  (forall appName title body c w1 t1 f payload,
      call_g_callback env appName title body w = Some (c, w1, t1) ->
      (f, payload) ∈ host_calls t1 ->
      host_calls t1 = [(f, payload)] /\
      exists this m,
        latest = Some this /\ heap w !! this = Some m /\
        callback_ m = Some f).
Proof.
  intros Hrun.
  assert (Hinv : globals_follow w latest).
  { apply (run_globals_follow ops (initial_world now) w None latest t);
      [done | exact Hrun]. }
  destruct Hinv as (Hi & Hc & He).
  split; [exact Hi |]. split; [exact Hc |]. split.
  - intros cb rest. exists (constructed
                              {| heap := heap w;
                                 next_address := next_address w;
                                 g_callback := g_callback w;
                                 g_monitorInstance := g_monitorInstance w;
                                 pending_exception := None;
                                 system_clock := system_clock w |} cb).
    cbn [perform]. unfold mbind, exec_bind.
    rewrite construct_run_function.
    unfold take_pending_exception, mret, exec_ret.
    cbn [pending_exception constructed heap next_address g_callback
         g_monitorInstance system_clock]. rewrite He. done.
  - intros appName title body c w1 t1 f payload Hcall Hin.
    unfold call_g_callback, get_world in Hcall.
    unfold mbind, exec_bind in Hcall. rewrite Hc in Hcall.
    destruct latest as [this |].
    + destruct (OnNotificationReceived env this appName title body w)
        as [[[c' w2] t2] |] eqn:Hon; [| discriminate].
      injection Hcall as <- <- <-.
      apply OnNotificationReceived_inv in Hon
        as (m & cb & b & Hm & Hcb & _ & _ & _ & ->).
      cbn in Hin. apply list_elem_of_singleton in Hin.
      injection Hin as -> ->. split; [reflexivity |]. by exists this, m.
    + injection Hcall as <- <- <-. cbn in Hin. by apply elem_of_nil in Hin.
Qed.

End Globals.

Lemma globals_refer_to_latest_instance_witness :
  run Sample.env Sample.two_monitors None (initial_world Sample.now)
  = Some (Returns (Some 1%nat),
          {| heap := {[ 0%nat := {| callback_ := Some 7%nat; isMonitoring_ := true |};
                        1%nat := {| callback_ := Some 8%nat; isMonitoring_ := false |};
                        2%nat := {| callback_ := None; isMonitoring_ := false |} ]};
             next_address := 3%nat;
             g_callback := Some 1%nat;
             g_monitorInstance := Some 1%nat;
             pending_exception := None;
             system_clock := Sample.now |},
          [EvSetupMonitoring 0;
           EvHostCall 8
             (notification_record Sample.env "Mail" "Hello" "World"
                "2026-10-30T00:00:00Z")]) /\
  Some 1%nat = Some 1%nat /\ Some 1%nat = Some 1%nat.
Proof.
  assert (Hrun : run Sample.env Sample.two_monitors None
                   (initial_world Sample.now)
                 = Some (Returns (Some 1%nat),
          {| heap := {[ 0%nat := {| callback_ := Some 7%nat; isMonitoring_ := true |};
                        1%nat := {| callback_ := Some 8%nat; isMonitoring_ := false |};
                        2%nat := {| callback_ := None; isMonitoring_ := false |} ]};
             next_address := 3%nat;
             g_callback := Some 1%nat;
             g_monitorInstance := Some 1%nat;
             pending_exception := None;
             system_clock := Sample.now |},
          [EvSetupMonitoring 0;
           EvHostCall 8
             (notification_record Sample.env "Mail" "Hello" "World"
                "2026-10-30T00:00:00Z")])) by reflexivity.
  split; [exact Hrun |].
  pose proof (globals_refer_to_latest_instance Sample.env Sample.now
                Sample.two_monitors _ _ _ Hrun) as (Hi & Hc & _).
  split; [exact Hi | exact Hc].
Defined.

(** ** Strings that are not seven-bit text *)

Example decode_keeps_well_formed :
  Utf8.decode_replacing (Utf8.of_bytes [77; 195; 169; 240; 159; 152; 128]%N)
  = Utf8.of_bytes [77; 195; 169; 240; 159; 152; 128]%N.
Proof. reflexivity. Qed.

Example decode_replaces_ill_formed :
  Utf8.decode_replacing (Utf8.of_bytes [226; 130; 65; 192; 128]%N)
  = Utf8.of_bytes [239; 191; 189; 65; 239; 191; 189; 239; 191; 189]%N.
Proof. reflexivity. Qed.

(** Two names that differ in an ill-formed byte arrive as the same
    JavaScript string. *)
Example String_New_not_injective :
  String_New Sample.env (Utf8.of_bytes [77; 255]%N)
  = String_New Sample.env (Utf8.of_bytes [77; 254]%N).
Proof. reflexivity. Qed.

(** ** How [Start] and [Stop] compose *)

Section Composition.

Local Abbreviation flagged m b :=
  {| callback_ := callback_ m; isMonitoring_ := b |} (only parsing).

Lemma only_flag_changed_trans (w w1 w2 : World) (this : nat) :
  only_flag_changed w w1 this -> only_flag_changed w1 w2 this ->
  only_flag_changed w w2 this.
Proof.
  unfold only_flag_changed.
  intros (Ho & Hc & Hd & Hn & Hg & Hi & He & Hs)
         (Ho' & Hc' & Hd' & Hn' & Hg' & Hi' & He' & Hs').
  repeat split; try congruence.
  intros other Hne. rewrite (Ho' other Hne). exact (Ho other Hne).
Qed.

Lemma bind_run {A B : Type} (e : Exec A) (k : A -> Exec B) (w w1 : World)
    (a : A) (t1 : list Event) :
  e w = Some (Returns a, w1, t1) ->
  (e ≫= k) w
  = match k a w1 with
    | Some (c, w2, t2) => Some (c, w2, t1 ++ t2)
    | None => None
    end.
Proof. intros He. unfold mbind, exec_bind. rewrite He. reflexivity. Qed.

(** [Start] followed by [Stop] ends where [Stop] alone ends, [Stop]
    followed by [Start] where [Start] alone ends.  From an idle instance
    [Start] then [Stop] restores the world; from a monitoring instance
    [Stop] then [Start] restores the world too, and enters
    [SetupMonitoring] once more. *)
Theorem Start_Stop_compose (w : World) (this : nat)
    (info info' : CallbackInfo) (m : NotificationMonitor) :
  heap w !! this = Some m ->
  result_of ((Start this info;; Stop this info') w)
  = result_of (Stop this info' w) /\
  result_of ((Stop this info';; Start this info) w)
  = result_of (Start this info w) /\
  (isMonitoring_ m = false ->
   (Start this info;; Stop this info') w
   = Some (Returns JsUndefined, w, [EvSetupMonitoring this])) /\
  (isMonitoring_ m = true ->
   (Stop this info';; Start this info) w
   = Some (Returns JsUndefined, w, [EvSetupMonitoring this])).
Proof.
  intros Hm.
  assert (Hsame : forall b, isMonitoring_ m = b ->
                            update_monitor w this (flagged m b) = w).
  { intros b <-. apply update_monitor_same. by rewrite monitor_eta. }
  assert (Hstop : Stop this info' w
                  = Some (Returns JsUndefined,
                          update_monitor w this (flagged m false), []))
    by exact (Stop_run w this info' m Hm).
  assert (Hstop_start : (Stop this info';; Start this info) w
            = Some (Returns JsUndefined, update_monitor w this (flagged m true),
                    [EvSetupMonitoring this])).
  { unfold mbind. rewrite (bind_run _ _ _ _ _ _ Hstop). cbn beta.
    rewrite (Start_run_idle _ this info (flagged m false)
               (heap_update_monitor w this _) eq_refl).
    by rewrite update_monitor_twice. }
  assert (Hstart_stop : forall t,
             Start this info w
             = Some (Returns JsUndefined,
                     update_monitor w this (flagged m true), t) ->
             (Start this info;; Stop this info') w
             = Some (Returns JsUndefined,
                     update_monitor w this (flagged m false), t ++ [])).
  { intros t Hstart. unfold mbind.
    rewrite (bind_run _ _ _ _ _ _ Hstart). cbn beta.
    rewrite (Stop_run _ this info' (flagged m true)
               (heap_update_monitor w this _)).
    by rewrite update_monitor_twice. }
  assert (Hstart : exists t,
             Start this info w
             = Some (Returns JsUndefined,
                     update_monitor w this (flagged m true), t) /\
             (isMonitoring_ m = false -> t = [EvSetupMonitoring this])).
  { destruct (isMonitoring_ m) eqn:Hflag.
    - exists []. rewrite (Hsame true eq_refl).
      split; [exact (Start_run_monitoring w this info m Hm Hflag) | done].
    - exists [EvSetupMonitoring this].
      split; [exact (Start_run_idle w this info m Hm Hflag) | done]. }
  destruct Hstart as (t & Hstart & Htrace).
  split; [by rewrite (Hstart_stop t Hstart), Hstop |].
  split; [by rewrite Hstop_start, Hstart |]. split.
  - intros Hflag. rewrite (Hstart_stop t Hstart), (Htrace Hflag).
    by rewrite (Hsame false Hflag).
  - intros Hflag. rewrite Hstop_start. by rewrite (Hsame true Hflag).
Qed.

Lemma Start_Stop_compose_witness :
  heap Sample.idle !! 0%nat
  = Some {| callback_ := Some 7%nat; isMonitoring_ := false |} /\
  result_of ((Start 0 [];; Stop 0 []) Sample.idle)
  = result_of (Stop 0 [] Sample.idle) /\
  result_of ((Stop 0 [];; Start 0 []) Sample.idle)
  = result_of (Start 0 [] Sample.idle) /\
  (false = false ->
   (Start 0 [];; Stop 0 []) Sample.idle
   = Some (Returns JsUndefined, Sample.idle, [EvSetupMonitoring 0])) /\
  (false = true ->
   (Stop 0 [];; Start 0 []) Sample.idle
   = Some (Returns JsUndefined, Sample.idle, [EvSetupMonitoring 0])).
Proof.
  split; [reflexivity |].
  apply (Start_Stop_compose Sample.idle 0 [] []
           {| callback_ := Some 7%nat; isMonitoring_ := false |}).
  reflexivity.
Defined.

Lemma invoke_run (w : World) (this : nat) (c : MethodCall)
    (m : NotificationMonitor) :
  heap w !! this = Some m ->
  exists t,
    invoke this c w
    = Some (Returns JsUndefined,
            update_monitor w this
              {| callback_ := callback_ m; isMonitoring_ := is_start c |}, t) /\
    host_calls t = [] /\ (setup_calls t <= if is_start c then 1 else 0)%nat.
Proof.
  intros Hm. destruct c as [info | info]; cbn [invoke is_start].
  - destruct (isMonitoring_ m) eqn:Hflag.
    + exists []. rewrite (Start_run_monitoring w this info m Hm Hflag).
      split; [| split; [reflexivity | cbn; lia]].
      rewrite <- Hflag, monitor_eta. by rewrite update_monitor_same.
    + exists [EvSetupMonitoring this].
      rewrite (Start_run_idle w this info m Hm Hflag).
      split; [reflexivity | split; [reflexivity | cbn; lia]].
  - exists []. rewrite (Stop_run w this info m Hm).
    split; [reflexivity | split; [reflexivity | cbn; lia]].
Qed.

Lemma setup_calls_app (t1 t2 : list Event) :
  setup_calls (t1 ++ t2) = (setup_calls t1 + setup_calls t2)%nat.
Proof. unfold setup_calls. by rewrite List.filter_app, length_app. Qed.

Lemma host_calls_app (t1 t2 : list Event) :
  host_calls (t1 ++ t2) = host_calls t1 ++ host_calls t2.
Proof. unfold host_calls. apply omap_app. Qed.

Lemma flag_after_cons (flag : bool) (c : MethodCall) (cs : list MethodCall) :
  flag_after flag (c :: cs) = flag_after (is_start c) cs.
Proof. unfold flag_after. rewrite last_cons. by destruct (last cs). Qed.

(** After any sequence of [start] and [stop] calls on a live instance the
    monitoring flag is the one the last call sets, whatever went before;
    nothing but the flag has changed, no host function was called, and
    [SetupMonitoring] was entered at most once per [start]. *)
Theorem last_call_decides (cs : list MethodCall) (w : World) (this : nat)
    (m : NotificationMonitor) :
  heap w !! this = Some m ->
  exists w1 t,
    invoke_all this cs w = Some (Returns tt, w1, t) /\
    monitoring w1 this = Some (flag_after (isMonitoring_ m) cs) /\
    only_flag_changed w w1 this /\
    host_calls t = [] /\
    (setup_calls t <= length (List.filter is_start cs))%nat.
Proof.
  revert w m. induction cs as [| c cs IH]; intros w m Hm.
  - exists w, []. split; [reflexivity |]. split.
    + unfold monitoring, flag_after. by rewrite Hm.
    + split; [apply only_flag_changed_refl |]. split; [reflexivity | cbn; lia].
  - destruct (invoke_run w this c m Hm) as (t0 & Hrun & Hquiet & Hsetup).
    set (m1 := {| callback_ := callback_ m; isMonitoring_ := is_start c |}) in *.
    destruct (IH (update_monitor w this m1) m1 (heap_update_monitor w this m1))
      as (w1 & t1 & Hrest & Hflag & Hframe & Hquiet1 & Hsetup1).
    exists w1, (t0 ++ t1). split.
    { cbn [invoke_all]. unfold mbind. rewrite (bind_run _ _ _ _ _ _ Hrun). cbn beta.
      by rewrite Hrest. }
    split; [by rewrite flag_after_cons |]. split.
    { eapply only_flag_changed_trans; [| exact Hframe].
      by apply update_monitor_only_flag. }
    split; [by rewrite host_calls_app, Hquiet, Hquiet1 |].
    rewrite setup_calls_app. cbn [List.filter].
    destruct (is_start c); cbn [length]; lia.
Qed.

Lemma last_call_decides_witness :
  heap Sample.idle !! 0%nat
  = Some {| callback_ := Some 7%nat; isMonitoring_ := false |} /\
  exists w1 t,
    invoke_all 0 [CallStart []; CallStart []; CallStop []; CallStart []]
      Sample.idle
    = Some (Returns tt, w1, t) /\
    monitoring w1 0%nat = Some true /\
    only_flag_changed Sample.idle w1 0 /\
    host_calls t = [] /\
    (setup_calls t <= 3)%nat.
Proof.
  split; [reflexivity |].
  apply (last_call_decides
           [CallStart []; CallStart []; CallStop []; CallStart []]
           Sample.idle 0 {| callback_ := Some 7%nat; isMonitoring_ := false |}).
  reflexivity.
Defined.

End Composition.

(** ** Delivery: exceptions, fresh and destroyed instances *)

Section DeliveryEdges.
Variable env : Environment.


(** A monitor that was constructed and never started receives the
    notifications that arrive through [g_callback]. *)
Theorem never_started_monitor_receives (w : World) (cb : nat)
    (rest : list JsValue) (appName title body : string) (b : Time.tm) :
  Time.gmtime (crt env) (system_clock w) = Some b ->
  exists w1,
    construct (JsFunction cb :: rest) w
    = Some (Returns (next_address w), w1, []) /\
    monitoring w1 (next_address w) = Some false /\
    call_g_callback env appName title body w1
    = Some (Returns tt, w1,
            [EvHostCall cb
               (notification_record env appName title body (Time.put_time b))]).
Proof.
  intros Hb. exists (constructed w cb).
  split; [apply construct_run_function |].
  assert (Hm : heap (constructed w cb) !! next_address w
               = Some {| callback_ := Some cb; isMonitoring_ := false |})
    by apply lookup_insert_eq.
  split; [unfold monitoring; by rewrite Hm |].
  unfold call_g_callback, get_world, mbind, exec_bind.
  cbn [g_callback constructed].
  rewrite (OnNotificationReceived_run env (constructed w cb) (next_address w)
             appName title body _ cb b Hm eq_refl Hb).
  reflexivity.
Qed.

Lemma destructor_run_idle (w : World) (this : nat) (m : NotificationMonitor) :
  heap w !! this = Some m -> isMonitoring_ m = false ->
  destructor this w = Some (Returns tt, w, []).
Proof.
  intros Hm Hflag. unfold destructor, mbind, exec_bind, load.
  by rewrite Hm, Hflag.
Qed.

Lemma destructor_run_monitoring (w : World) (this : nat)
    (m : NotificationMonitor) :
  heap w !! this = Some m -> isMonitoring_ m = true ->
  destructor this w = None.
Proof.
  intros Hm Hflag. unfold destructor, mbind at 1, exec_bind at 1, load.
  by rewrite Hm, Hflag.
Qed.

(** Destroying an idle instance releases it and clears neither global:
    when [g_callback] referred to it, it still does, and the next
    notification through [g_callback] is a call on the destroyed object.
    Destroying a monitoring instance aborts the process in the
    destructor. *)
Theorem delete_leaves_globals_dangling (w : World) (this : nat)
    (m : NotificationMonitor) (appName title body : string) :
  heap w !! this = Some m -> g_callback w = Some this ->
  (isMonitoring_ m = false ->
   exists w1,
     delete_instance this w = Some (Returns tt, w1, []) /\
     heap w1 = delete this (heap w) /\
     g_callback w1 = Some this /\
     g_monitorInstance w1 = g_monitorInstance w /\
     call_g_callback env appName title body w1 = None) /\
  (isMonitoring_ m = true -> delete_instance this w = None).
Proof.
  intros Hm Hg. split; intros Hflag.
  - unfold delete_instance, mbind.
    rewrite (bind_run _ _ _ _ _ _ (destructor_run_idle w this m Hm Hflag)).
    cbn beta. unfold deallocate. rewrite Hm. eexists.
    split; [reflexivity |].
    cbn [heap g_callback g_monitorInstance].
    split; [reflexivity |]. split; [exact Hg |]. split; [reflexivity |].
    unfold call_g_callback, get_world, mbind, exec_bind.
    cbn [g_callback]. rewrite Hg.
    unfold OnNotificationReceived, mbind, exec_bind, load. cbn [heap].
    by rewrite lookup_delete_eq.
  - unfold delete_instance, mbind, exec_bind.
    by rewrite (destructor_run_monitoring w this m Hm Hflag).
Qed.

End DeliveryEdges.


Lemma never_started_monitor_receives_witness :
  Time.gmtime (crt Sample.env) (system_clock (initial_world Sample.now))
  = Some (Time.broken_down Sample.now) /\
  exists w1,
    construct [JsFunction 7] (initial_world Sample.now)
    = Some (Returns 0%nat, w1, []) /\
    monitoring w1 0%nat = Some false /\
    call_g_callback Sample.env "Mail" "Hello" "World" w1
    = Some (Returns tt, w1,
            [EvHostCall 7
               (notification_record Sample.env "Mail" "Hello" "World"
                  (Time.put_time (Time.broken_down Sample.now)))]).
Proof.
  split; [reflexivity |].
  apply (never_started_monitor_receives Sample.env (initial_world Sample.now)
           7 [] "Mail" "Hello" "World" (Time.broken_down Sample.now)).
  reflexivity.
Defined.

Lemma delete_leaves_globals_dangling_witness :
  heap Sample.idle !! 0%nat
  = Some {| callback_ := Some 7%nat; isMonitoring_ := false |} /\
  g_callback Sample.idle = Some 0%nat /\
  (false = false ->
   exists w1,
     delete_instance 0 Sample.idle = Some (Returns tt, w1, []) /\
     heap w1 = delete 0%nat (heap Sample.idle) /\
     g_callback w1 = Some 0%nat /\
     g_monitorInstance w1 = Some 0%nat /\
     call_g_callback Sample.env "Mail" "Hello" "World" w1 = None) /\
  (false = true -> delete_instance 0 Sample.idle = None).
Proof.
  split; [reflexivity |]. split; [reflexivity |].
  apply (delete_leaves_globals_dangling Sample.env Sample.idle 0
           {| callback_ := Some 7%nat; isMonitoring_ := false |}
           "Mail" "Hello" "World"); reflexivity.
Defined.

(** ** What reaches the host function *)

Section Quiet.
Variable env : Environment.

Lemma quiet_ret {A : Type} (a : A) : quiet (mret a).
Proof. intros w c w1 t Hrun. by injection Hrun as <- <- <-. Qed.

Lemma quiet_bind {A B : Type} (e : Exec A) (k : A -> Exec B) :
  quiet e -> (forall a, quiet (k a)) -> quiet (e ≫= k).
Proof.
  intros He Hk w c w1 t Hrun. unfold mbind, exec_bind in Hrun.
  destruct (e w) as [[[[a | ex] w0] t0] |] eqn:Hew; [| | discriminate].
  - destruct (k a w0) as [[[c' w2] t2] |] eqn:Hkw; [| discriminate].
    injection Hrun as <- <- <-. rewrite host_calls_app.
    by rewrite (He _ _ _ _ Hew), (Hk a _ _ _ _ Hkw).
  - injection Hrun as <- <- <-. exact (He _ _ _ _ Hew).
Qed.

Lemma quiet_load (this : nat) : quiet (load this).
Proof.
  intros w c w1 t Hrun. unfold load in Hrun.
  destruct (heap w !! this); [| discriminate]. by injection Hrun as <- <- <-.
Qed.

Lemma quiet_store (this : nat) (m : NotificationMonitor) : quiet (store this m).
Proof.
  intros w c w1 t Hrun. unfold store in Hrun.
  destruct (heap w !! this); [| discriminate]. by injection Hrun as <- <- <-.
Qed.

Lemma quiet_deallocate (this : nat) : quiet (deallocate this).
Proof.
  intros w c w1 t Hrun. unfold deallocate in Hrun.
  destruct (heap w !! this); [| discriminate]. by injection Hrun as <- <- <-.
Qed.

Lemma quiet_set_isMonitoring (this : nat) (b : bool) :
  quiet (set_isMonitoring this b).
Proof.
  unfold set_isMonitoring. apply quiet_bind; [apply quiet_load |].
  intros m. apply quiet_store.
Qed.

Lemma quiet_Stop (this : nat) (info : CallbackInfo) : quiet (Stop this info).
Proof.
  unfold Stop. apply quiet_bind; [apply quiet_set_isMonitoring |].
  intros _. apply quiet_ret.
Qed.

Lemma quiet_Start (this : nat) (info : CallbackInfo) : quiet (Start this info).
Proof.
  unfold Start. apply quiet_bind; [apply quiet_load |]. intros m.
  apply quiet_bind; [| intros _; apply quiet_ret].
  destruct (isMonitoring_ m); cbn [negb]; [apply quiet_ret |].
  unfold SetupMonitoring. apply quiet_bind; [| intros _; apply quiet_set_isMonitoring].
  intros w c w1 t Hrun. by injection Hrun as <- <- <-.
Qed.

Lemma quiet_delete_instance (this : nat) : quiet (delete_instance this).
Proof.
  unfold delete_instance, destructor.
  apply quiet_bind; [| intros _; apply quiet_deallocate].
  apply quiet_bind; [apply quiet_load |]. intros m.
  destruct (isMonitoring_ m); [| apply quiet_ret].
  apply quiet_bind; [intros w c w1 t Hrun; discriminate |]. intros info.
  apply quiet_bind; [apply quiet_Stop | intros _; apply quiet_ret].
Qed.

Lemma quiet_construct (info : CallbackInfo) : quiet (construct info).
Proof.
  intros w c w1 t Hrun. destruct (supplies_callback info) eqn:Hinfo.
  - destruct info as [| [] rest]; try discriminate.
    rewrite construct_run_function in Hrun. by injection Hrun as <- <- <-.
  - rewrite (construct_run_rejected w info Hinfo) in Hrun.
    by injection Hrun as <- <- <-.
Qed.

Lemma event_of_notification_record (appName title body timestamp : string) :
  event_of (notification_record env appName title body timestamp)
  = as_delivered env (appName, title, body).
Proof. reflexivity. Qed.

Lemma delivered_OnNotificationReceived (w w1 : World) (this : nat)
    (appName title body : string) (c : Completion unit) (t : list Event) :
  OnNotificationReceived env this appName title body w = Some (c, w1, t) ->
  delivered t = [as_delivered env (appName, title, body)].
Proof.
  intros Hrun. apply OnNotificationReceived_inv in Hrun
    as (m & cb & b & _ & _ & _ & _ & _ & ->).
  reflexivity.
Qed.

Lemma delivered_app (t1 t2 : list Event) :
  delivered (t1 ++ t2) = delivered t1 ++ delivered t2.
Proof. unfold delivered. by rewrite host_calls_app, fmap_app. Qed.

Lemma delivered_quiet (t : list Event) : host_calls t = [] -> delivered t = [].
Proof. unfold delivered. by intros ->. Qed.

(** What one call of the host hands to host functions: the notification
    it carries, if it carries one. *)
Lemma perform_delivered (op : Op) (w w1 : World)
    (latest latest1 : option nat) (t : list Event) :
  perform env op latest w = Some (Returns latest1, w1, t) ->
  delivered t = as_delivered env <$> notifications [op].
Proof.
  intros Hrun.
  assert (Hquiet : forall (e : Exec JsValue),
             quiet e -> (e;; mret latest) w = Some (Returns latest1, w1, t) ->
             delivered t = []).
  { intros e He Hbind. apply delivered_quiet.
    refine (quiet_bind e _ He _ _ _ _ _ Hbind). intros _. apply quiet_ret. }
  destruct op as [info | this info | this info | this
                 | a ti b | this a ti b | now]; cbn [perform] in Hrun.
  - apply delivered_quiet.
    refine (quiet_bind _ _ (quiet_construct info) _ _ _ _ _ Hrun).
    intros this w0 c0 w2 t0 Hrest. by injection Hrest as <- <- <-.
  - exact (Hquiet _ (quiet_Start this info) Hrun).
  - exact (Hquiet _ (quiet_Stop this info) Hrun).
  - apply delivered_quiet.
    refine (quiet_bind _ _ (quiet_delete_instance this) _ _ _ _ _ Hrun).
    intros _. apply quiet_ret.
  - unfold mbind at 1, exec_bind at 1 in Hrun.
    destruct (call_g_callback env a ti b w) as [[[[r | ex] w0] t0] |] eqn:Hop;
      try discriminate.
    injection Hrun as <- <- <-. rewrite app_nil_r.
    unfold call_g_callback, get_world, mbind, exec_bind in Hop.
    destruct (g_callback w) as [this |]; [| discriminate].
    destruct (OnNotificationReceived env this a ti b w)
      as [[[c' w2] t2] |] eqn:Hon; [| discriminate].
    injection Hop as -> <- <-.
    exact (delivered_OnNotificationReceived _ _ _ _ _ _ _ _ Hon).
  - unfold mbind at 1, exec_bind at 1 in Hrun.
    destruct (OnNotificationReceived env this a ti b w)
      as [[[[r | ex] w0] t0] |] eqn:Hon; try discriminate.
    injection Hrun as <- <- <-. rewrite app_nil_r.
    exact (delivered_OnNotificationReceived _ _ _ _ _ _ _ _ Hon).
  - by injection Hrun as <- <- <-.
Qed.

Lemma run_delivered (ops : list Op) (w w1 : World)
    (latest latest1 : option nat) (t : list Event) :
  run env ops latest w = Some (Returns latest1, w1, t) ->
  delivered t = as_delivered env <$> notifications ops.
Proof.
  revert w latest t. induction ops as [| op ops IH]; intros w latest t Hrun.
  - cbn [run] in Hrun. by injection Hrun as <- <- <-.
  - cbn [run] in Hrun. unfold mbind, exec_bind in Hrun.
    destruct (perform env op latest w) as [[[[l | ex] w0] t0] |] eqn:Hop;
      try discriminate.
    destruct (run env ops l w0) as [[[c' w2] t2] |] eqn:Hrest;
      try discriminate.
    injection Hrun as -> <- <-.
    rewrite delivered_app, (perform_delivered _ _ _ _ _ _ Hop),
      (IH _ _ _ Hrest).
    change (op :: ops) with ([op] ++ ops).
    unfold notifications. by rewrite omap_app, fmap_app.
Qed.

Lemma run_host_calls_length (ops : list Op) (w w1 : World)
    (latest latest1 : option nat) (t : list Event) :
  run env ops latest w = Some (Returns latest1, w1, t) ->
  length (host_calls t) = length (notifications ops).
Proof.
  intros Hrun. apply run_delivered in Hrun.
  apply (f_equal length) in Hrun. unfold delivered in Hrun.
  by rewrite !length_fmap in Hrun.
Qed.

(** A program that runs to its end hands the host one record for each
    notification it carries, in their order, whatever [start], [stop],
    constructions and destructions lie in between; the first three fields
    of the record are what [Napi::String::New] makes of the strings of the
    notification, which for seven-bit text are the strings themselves.  A
    program that carries no notification calls no host function. *)
Theorem run_delivers_each_notification_in_order (ops : list Op)
    (w w1 : World) (latest latest1 : option nat) (t : list Event) :
  run env ops latest w = Some (Returns latest1, w1, t) ->
  delivered t = as_delivered env <$> notifications ops /\
  length (host_calls t) = length (notifications ops) /\
  (notifications ops = [] -> host_calls t = []) /\
  (Forall (fun n => is_seven_bit n.1.1 = true /\ is_seven_bit n.1.2 = true /\
                    is_seven_bit n.2 = true) (notifications ops) ->
   delivered t
   = (fun n => Some (JsString n.1.1, JsString n.1.2, JsString n.2))
       <$> notifications ops).
Proof.
  intros Hrun. pose proof (run_delivered _ _ _ _ _ _ Hrun) as Hdel.
  split; [exact Hdel |].
  pose proof (run_host_calls_length _ _ _ _ _ _ Hrun) as Hlen.
  split; [exact Hlen |]. split.
  - intros Hnone. rewrite Hnone in Hlen. by apply nil_length_inv.
  - intros Hseven. rewrite Hdel. clear Hdel Hlen Hrun.
    induction Hseven as [| [[a ti] b] ns (Ha & Ht & Hb) _ IH]; [reflexivity |].
    cbn [fmap list_fmap]. cbn [fmap list_fmap] in IH. rewrite IH.
    f_equal. unfold as_delivered, String_New. cbn [fst snd] in *.
    by rewrite Ha, Ht, Hb.
Qed.

End Quiet.

Lemma run_delivers_each_notification_in_order_witness :
  run Sample.env
    [OpNew [JsFunction 7]; OpNotify "A" "1" "x"; OpStart 0 [];
     OpDeliver 0 "B" "2" "y"; OpStop 0 []; OpNotify "C" "3" "z"]
    None (initial_world Sample.now)
  = Some (Returns (Some 0%nat), Sample.idle,
          [EvHostCall 7 (notification_record Sample.env "A" "1" "x" "2026-10-30T00:00:00Z");
           EvSetupMonitoring 0;
           EvHostCall 7 (notification_record Sample.env "B" "2" "y" "2026-10-30T00:00:00Z");
           EvHostCall 7 (notification_record Sample.env "C" "3" "z" "2026-10-30T00:00:00Z")]) /\
  delivered
    [EvHostCall 7 (notification_record Sample.env "A" "1" "x" "2026-10-30T00:00:00Z");
     EvSetupMonitoring 0;
     EvHostCall 7 (notification_record Sample.env "B" "2" "y" "2026-10-30T00:00:00Z");
     EvHostCall 7 (notification_record Sample.env "C" "3" "z" "2026-10-30T00:00:00Z")]
  = [Some (JsString "A", JsString "1", JsString "x");
     Some (JsString "B", JsString "2", JsString "y");
     Some (JsString "C", JsString "3", JsString "z")].
Proof.
  assert (Hrun : run Sample.env
    [OpNew [JsFunction 7]; OpNotify "A" "1" "x"; OpStart 0 [];
     OpDeliver 0 "B" "2" "y"; OpStop 0 []; OpNotify "C" "3" "z"]
    None (initial_world Sample.now)
  = Some (Returns (Some 0%nat), Sample.idle,
          [EvHostCall 7 (notification_record Sample.env "A" "1" "x" "2026-10-30T00:00:00Z");
           EvSetupMonitoring 0;
           EvHostCall 7 (notification_record Sample.env "B" "2" "y" "2026-10-30T00:00:00Z");
           EvHostCall 7 (notification_record Sample.env "C" "3" "z" "2026-10-30T00:00:00Z")]))
    by reflexivity.
  split; [exact Hrun |].
  exact (proj1 (run_delivers_each_notification_in_order Sample.env _ _ _ _ _ _
                  Hrun)).
Defined.

(** ** The exported class *)

Section Exports.
Variable env : Environment.

Lemma notification_of_native_call (exports : gmap string Export) (op : JsOp)
    (native : Op) :
  native_call exports op = Some native -> notification_of native = None.
Proof.
  destruct op as [property info | this cls property info | this | now];
    cbn [native_call].
  - destruct (exports !! property) as [[v | cls] |]; try discriminate.
    by intros [= <-].
  - destruct (method_of cls property) as [[] |]; try discriminate;
      by intros [= <-].
  - by intros [= <-].
  - by intros [= <-].
Qed.

Lemma notifications_native_calls (exports : gmap string Export)
    (program : list JsOp) :
  notifications (omap (native_call exports) program) = [].
Proof.
  unfold notifications. induction program as [| op program IH]; [reflexivity |].
  cbn [omap list_omap]. destruct (native_call exports op) as [native |] eqn:Hop.
  - cbn [omap list_omap].
    by rewrite (notification_of_native_call exports op native Hop).
  - exact IH.
Qed.

(** No program of the host that works through an [exports] object, by
    construction, method calls, finalisation and the passing of time,
    makes the module call a host function: whatever is exported, the
    callbacks handed to the constructor are never called. *)
Theorem exported_api_never_calls_back (exports : gmap string Export)
    (program : list JsOp) (w w1 : World) (latest : option nat)
    (t : list Event) :
  js_run env exports program w = Some (Returns latest, w1, t) ->
  host_calls t = [].
Proof.
  intros Hrun. unfold js_run in Hrun.
  apply run_host_calls_length in Hrun.
  rewrite notifications_native_calls in Hrun. by apply nil_length_inv.
Qed.

End Exports.

Lemma exported_api_never_calls_back_witness :
  js_run Sample.env (Init 1 ∅).2
    [JsNew "NotificationMonitor" [JsFunction 7];
     JsCall 0 (DefineClass 1 "NotificationMonitor"
                 [("start", MethodStart); ("stop", MethodStop)]) "start" [];
     JsCall 0 (DefineClass 1 "NotificationMonitor"
                 [("start", MethodStart); ("stop", MethodStop)])
       "OnNotificationReceived" [JsString "Mail"];
     JsNew "Missing" [JsFunction 8];
     JsClock (Sample.now + 60)]
    (initial_world Sample.now)
  = Some (Returns (Some 0%nat),
          {| heap := {[ 0%nat := {| callback_ := Some 7%nat;
                                    isMonitoring_ := true |} ]};
             next_address := 1%nat;
             g_callback := Some 0%nat;
             g_monitorInstance := Some 0%nat;
             pending_exception := None;
             system_clock := Sample.now + 60 |},
          [EvSetupMonitoring 0]) /\
  host_calls [EvSetupMonitoring 0] = [].
Proof.
  assert (Hrun : js_run Sample.env (Init 1 ∅).2
    [JsNew "NotificationMonitor" [JsFunction 7];
     JsCall 0 (DefineClass 1 "NotificationMonitor"
                 [("start", MethodStart); ("stop", MethodStop)]) "start" [];
     JsCall 0 (DefineClass 1 "NotificationMonitor"
                 [("start", MethodStart); ("stop", MethodStop)])
       "OnNotificationReceived" [JsString "Mail"];
     JsNew "Missing" [JsFunction 8];
     JsClock (Sample.now + 60)]
    (initial_world Sample.now)
  = Some (Returns (Some 0%nat),
          {| heap := {[ 0%nat := {| callback_ := Some 7%nat;
                                    isMonitoring_ := true |} ]};
             next_address := 1%nat;
             g_callback := Some 0%nat;
             g_monitorInstance := Some 0%nat;
             pending_exception := None;
             system_clock := Sample.now + 60 |},
          [EvSetupMonitoring 0])) by reflexivity.
  split; [exact Hrun |].
  exact (exported_api_never_calls_back Sample.env _ _ _ _ _ _ Hrun).
Defined.

(** ** The timestamp determines the second *)

Section TimestampInjective.
Import Time Timegm.

Ltac divmod := Z.div_mod_to_equations; lia.

Lemma doe_round_trip_all :
  all_from (Z.to_nat 146097) 0 doe_round_trip = true.
Proof. vm_compute. reflexivity. Qed.

Lemma days_from_civil_from_days (z : Z) :
  let '(y, m, d) := civil_from_days z in days_from_civil y m d = z.
Proof.
  unfold civil_from_days.
  assert (Hrange : 0 <= (z + 719468) mod 146097 < 146097) by divmod.
  pose proof (all_from_spec _ _ _ doe_round_trip_all
                ((z + 719468) mod 146097)) as Hok.
  unfold doe_round_trip in Hok.
  destruct (civil_of_doe ((z + 719468) mod 146097)) as [[yc m] d].
  assert (Hok' : (0 <=? (if m <=? 2 then yc - 1 else yc)) &&
                 ((if m <=? 2 then yc - 1 else yc) <=? 399) &&
                 (doe_of_civil (if m <=? 2 then yc - 1 else yc) m d
                  =? (z + 719468) mod 146097) = true) by (apply Hok; lia).
  apply andb_prop in Hok' as [Hbounds Hdoe].
  apply andb_prop in Hbounds as [Hlo Hhi].
  apply Z.eqb_eq in Hdoe. apply Z.leb_le in Hlo, Hhi.
  unfold days_from_civil.
  replace (if m <=? 2 then (z + 719468) / 146097 * 400 + yc - 1
           else (z + 719468) / 146097 * 400 + yc)
    with ((z + 719468) / 146097 * 400 + (if m <=? 2 then yc - 1 else yc))
    by (destruct (m <=? 2); lia).
  set (yoe := if m <=? 2 then yc - 1 else yc) in *.
  replace (((z + 719468) / 146097 * 400 + yoe) / 400)
    with ((z + 719468) / 146097) by divmod.
  replace (((z + 719468) / 146097 * 400 + yoe) mod 400) with yoe by divmod.
  rewrite Hdoe. divmod.
Qed.

(** [gmtime] loses nothing: the broken-down time of any second denotes
    that second. *)
Lemma seconds_of_broken_down (t : Z) : seconds_of (broken_down t) = t.
Proof.
  unfold seconds_of, broken_down.
  pose proof (days_from_civil_from_days (t / 86400)) as Hdays.
  destruct (civil_from_days (t / 86400)) as [[y m] d].
  cbn [tm_year tm_mon tm_mday tm_hour tm_min tm_sec].
  replace (y - 1900 + 1900) with y by lia.
  replace (m - 1 + 1) with m by lia.
  rewrite Hdays. divmod.
Qed.

Lemma digit_char_inj (d d' : Z) :
  0 <= d <= 9 -> 0 <= d' <= 9 -> digit_char d = digit_char d' -> d = d'.
Proof.
  intros Hd Hd' Heq. unfold digit_char in Heq.
  apply (f_equal N_of_ascii) in Heq.
  rewrite !N_ascii_embedding in Heq by lia. lia.
Qed.

Lemma two_digits_determine (n n' : Z) :
  0 <= n <= 99 -> 0 <= n' <= 99 ->
  digit_char (n / 10) = digit_char (n' / 10) ->
  digit_char (n mod 10) = digit_char (n' mod 10) -> n = n'.
Proof.
  intros Hn Hn' Hhi Hlo.
  apply digit_char_inj in Hhi; [| divmod | divmod].
  apply digit_char_inj in Hlo; [| divmod | divmod].
  divmod.
Qed.

Lemma four_digits_determine (n n' : Z) :
  1000 <= n <= 9999 -> 1000 <= n' <= 9999 ->
  digit_char (n / 1000) = digit_char (n' / 1000) ->
  digit_char (n / 100 mod 10) = digit_char (n' / 100 mod 10) ->
  digit_char (n / 10 mod 10) = digit_char (n' / 10 mod 10) ->
  digit_char (n mod 10) = digit_char (n' mod 10) -> n = n'.
Proof.
  intros Hn Hn' H3 H2 H1 H0.
  apply digit_char_inj in H3; [| divmod | divmod].
  apply digit_char_inj in H2; [| divmod | divmod].
  apply digit_char_inj in H1; [| divmod | divmod].
  apply digit_char_inj in H0; [| divmod | divmod].
  divmod.
Qed.

Lemma put_time_determines_members (b b' : tm) :
  1000 <= tm_year b + 1900 <= 9999 -> 0 <= tm_mon b + 1 <= 99 ->
  0 <= tm_mday b <= 99 -> 0 <= tm_hour b <= 99 ->
  0 <= tm_min b <= 99 -> 0 <= tm_sec b <= 99 ->
  1000 <= tm_year b' + 1900 <= 9999 -> 0 <= tm_mon b' + 1 <= 99 ->
  0 <= tm_mday b' <= 99 -> 0 <= tm_hour b' <= 99 ->
  0 <= tm_min b' <= 99 -> 0 <= tm_sec b' <= 99 ->
  put_time b = put_time b' -> b = b'.
Proof.
  intros Hy Hm Hd Hh Hmi Hs Hy' Hm' Hd' Hh' Hmi' Hs' Heq.
  unfold put_time in Heq.
  rewrite (decimal_four_digits _ Hy), (decimal_four_digits _ Hy') in Heq.
  rewrite (two_digits_spec _ Hm), (two_digits_spec _ Hd),
    (two_digits_spec _ Hh), (two_digits_spec _ Hmi), (two_digits_spec _ Hs),
    (two_digits_spec _ Hm'), (two_digits_spec _ Hd'),
    (two_digits_spec _ Hh'), (two_digits_spec _ Hmi'), (two_digits_spec _ Hs')
    in Heq.
  cbv [String.append] in Heq.
  injection Heq as Y3 Y2 Y1 Y0 Mo1 Mo0 D1 D0 H1 H0 Mi1 Mi0 S1 S0.
  pose proof (four_digits_determine _ _ Hy Hy' Y3 Y2 Y1 Y0) as Ey.
  pose proof (two_digits_determine _ _ Hm Hm' Mo1 Mo0) as Em.
  pose proof (two_digits_determine _ _ Hd Hd' D1 D0) as Ed.
  pose proof (two_digits_determine _ _ Hh Hh' H1 H0) as Eh.
  pose proof (two_digits_determine _ _ Hmi Hmi' Mi1 Mi0) as Emi.
  pose proof (two_digits_determine _ _ Hs Hs' S1 S0) as Es.
  destruct b, b'. cbn in *. f_equal; lia.
Qed.

(** Between the years 1000 and 9999 the timestamp determines the second
    it was taken in: two clock readings are printed alike only if they are
    the same second. *)
Theorem timestamp_determines_second (t t' : Z) :
  year_1000_start <= t <= year_9999_end ->
  year_1000_start <= t' <= year_9999_end ->
  put_time (broken_down t) = put_time (broken_down t') -> t = t'.
Proof.
  intros Ht Ht' Heq.
  pose proof (broken_down_bounds t Ht) as Hb.
  pose proof (broken_down_bounds t' Ht') as Hb'. cbv zeta in Hb, Hb'.
  assert (Hsame : broken_down t = broken_down t')
    by (apply put_time_determines_members; try lia; exact Heq).
  rewrite <- (seconds_of_broken_down t), <- (seconds_of_broken_down t').
  by rewrite Hsame.
Qed.

End TimestampInjective.

Lemma timestamp_determines_second_witness :
  Time.year_1000_start <= Sample.now <= Time.year_9999_end /\
  Time.year_1000_start <= 1793318400 <= Time.year_9999_end /\
  Time.put_time (Time.broken_down Sample.now)
  = Time.put_time (Time.broken_down 1793318400) /\
  Sample.now = 1793318400.
Proof.
  assert (Hrange : Time.year_1000_start <= Sample.now <= Time.year_9999_end)
    by (vm_compute; split; discriminate).
  split; [exact Hrange |]. split; [exact Hrange |]. split; [reflexivity |].
  exact (timestamp_determines_second Sample.now 1793318400 Hrange Hrange
           eq_refl).
Defined.

(** ** More on construction *)

Section ConstructionMore.

Lemma supplies_callback_take (info : CallbackInfo) :
  supplies_callback (take 1 info) = supplies_callback info.
Proof. destruct info as [| [] rest]; reflexivity. Qed.

(** The constructor looks at its first argument only: further arguments
    change neither the outcome nor the world. *)
Theorem construct_uses_first_argument_only (w : World) (info : CallbackInfo) :
  construct info w = construct (take 1 info) w.
Proof.
  destruct (supplies_callback info) eqn:Hinfo.
  - destruct info as [| [] rest]; try discriminate.
    cbn [take]. by rewrite !construct_run_function.
  - rewrite (construct_run_rejected w info Hinfo).
    rewrite (construct_run_rejected w (take 1 info)); [reflexivity |].
    by rewrite supplies_callback_take.
Qed.

(** A construction with a function as first argument returns a new
    instance that holds that function and is not monitoring; both globals
    refer to it; every other instance, the pending exception and the clock
    are as before, and no host function is called. *)
Theorem construct_with_callback (w : World) (cb : nat) (rest : list JsValue) :
  exists w1,
    construct (JsFunction cb :: rest) w
    = Some (Returns (next_address w), w1, []) /\
    heap w1 !! next_address w
    = Some {| callback_ := Some cb; isMonitoring_ := false |} /\
    (forall other, other <> next_address w ->
                   heap w1 !! other = heap w !! other) /\
    g_monitorInstance w1 = Some (next_address w) /\
    g_callback w1 = Some (next_address w) /\
    pending_exception w1 = pending_exception w /\
    system_clock w1 = system_clock w.
Proof.
  exists (constructed w cb). split; [apply construct_run_function |].
  cbn [constructed heap g_monitorInstance g_callback pending_exception
       system_clock].
  split; [apply lookup_insert_eq |]. split; [| done].
  intros other Hne. by rewrite lookup_insert_ne.
Qed.

End ConstructionMore.

(** ** Instances over a program *)

Section Instances.
Variable env : Environment.

Lemma instances_evolve_refl (touched : nat -> Prop) (w : World) :
  instances_evolve touched w w.
Proof. split; [lia | intros this _; by left]. Qed.

Lemma instances_evolve_trans (touched1 touched2 touched : nat -> Prop)
    (w w1 w2 : World) :
  (forall this, touched1 this -> touched this) ->
  (forall this, touched2 this -> touched this) ->
  instances_evolve touched1 w w1 -> instances_evolve touched2 w1 w2 ->
  instances_evolve touched w w2.
Proof.
  intros H1 H2 [Hn Hw] [Hn' Hw']. split; [lia |].
  intros this Hlt.
  destruct (Hw this Hlt) as [Hsame | [Ht Hchg]];
    destruct (Hw' this ltac:(lia)) as [Hsame' | [Ht' Hchg']].
  - left. congruence.
  - right. split; [by apply H2 |]. rewrite <- Hsame. exact Hchg'.
  - right. split; [by apply H1 |]. rewrite Hsame'. exact Hchg.
  - right. split; [by apply H1 |].
    destruct Hchg' as [Hnone | (m1 & b1 & Hm1 & Hm2)]; [by left |].
    destruct Hchg as [Hnone | (m & b & Hm & Hm')]; [congruence |].
    right. exists m, b1. split; [exact Hm |].
    rewrite Hm2. rewrite Hm' in Hm1. by injection Hm1 as <-.
Qed.

Lemma instances_evolve_update (w : World) (this : nat)
    (m : NotificationMonitor) (b : bool) :
  heap w !! this = Some m ->
  instances_evolve (fun a => a = this) w
    (update_monitor w this {| callback_ := callback_ m; isMonitoring_ := b |}).
Proof.
  intros Hm. split; [cbn; lia |]. intros a _. cbn [heap update_monitor].
  destruct (decide (a = this)) as [-> | Hne].
  - right. split; [reflexivity |]. right. exists m, b.
    split; [exact Hm | apply lookup_insert_eq].
  - left. by rewrite lookup_insert_ne.
Qed.

Lemma Start_inv (w w1 : World) (this : nat) (info : CallbackInfo)
    (c : Completion JsValue) (t : list Event) :
  Start this info w = Some (c, w1, t) ->
  instances_evolve (fun a => a = this) w w1.
Proof.
  intros Hrun. destruct (heap w !! this) as [m |] eqn:Hm.
  - destruct (isMonitoring_ m) eqn:Hflag.
    + rewrite (Start_run_monitoring w this info m Hm Hflag) in Hrun.
      injection Hrun as <- <- <-. apply instances_evolve_refl.
    + rewrite (Start_run_idle w this info m Hm Hflag) in Hrun.
      injection Hrun as <- <- <-. by apply instances_evolve_update.
  - unfold Start, mbind, exec_bind, load in Hrun. by rewrite Hm in Hrun.
Qed.

Lemma Stop_inv (w w1 : World) (this : nat) (info : CallbackInfo)
    (c : Completion JsValue) (t : list Event) :
  Stop this info w = Some (c, w1, t) ->
  instances_evolve (fun a => a = this) w w1.
Proof.
  intros Hrun. destruct (heap w !! this) as [m |] eqn:Hm.
  - rewrite (Stop_run w this info m Hm) in Hrun.
    injection Hrun as <- <- <-. by apply instances_evolve_update.
  - unfold Stop, set_isMonitoring, mbind, exec_bind, load in Hrun.
    by rewrite Hm in Hrun.
Qed.

Lemma delete_instance_inv (w w1 : World) (this : nat)
    (c : Completion unit) (t : list Event) :
  delete_instance this w = Some (c, w1, t) ->
  instances_evolve (fun a => a = this) w w1.
Proof.
  intros Hrun. destruct (heap w !! this) as [m |] eqn:Hm.
  - destruct (isMonitoring_ m) eqn:Hflag.
    + unfold delete_instance, mbind, exec_bind in Hrun.
      by rewrite (destructor_run_monitoring w this m Hm Hflag) in Hrun.
    + unfold delete_instance, mbind in Hrun.
      rewrite (bind_run _ _ _ _ _ _ (destructor_run_idle w this m Hm Hflag))
        in Hrun.
      cbn beta in Hrun. unfold deallocate in Hrun. rewrite Hm in Hrun.
      injection Hrun as <- <- <-.
      split; [cbn; lia |]. intros a _. cbn [heap].
      destruct (decide (a = this)) as [-> | Hne].
      * right. split; [reflexivity |]. left. apply lookup_delete_eq.
      * left. by rewrite lookup_delete_ne.
  - unfold delete_instance, destructor, mbind, exec_bind, load in Hrun.
    by rewrite Hm in Hrun.
Qed.

Lemma construct_inv (w w1 : World) (info : CallbackInfo)
    (c : Completion nat) (t : list Event) :
  construct info w = Some (c, w1, t) ->
  instances_evolve (fun _ => False) w
    {| heap := heap w1;
       next_address := next_address w1;
       g_callback := g_callback w1;
       g_monitorInstance := g_monitorInstance w1;
       pending_exception := None;
       system_clock := system_clock w1 |}.
Proof.
  intros Hrun.
  assert (Hw1 : next_address w1 = S (next_address w) /\
                exists m, heap w1 = <[next_address w := m]> (heap w)).
  { destruct (supplies_callback info) eqn:Hinfo.
    - destruct info as [| [] rest]; try discriminate.
      rewrite construct_run_function in Hrun. injection Hrun as <- <- <-.
      split; [reflexivity | by eexists].
    - rewrite (construct_run_rejected w info Hinfo) in Hrun.
      injection Hrun as <- <- <-. split; [reflexivity | by eexists]. }
  destruct Hw1 as (Hn & m & Hheap). split; [cbn; lia |].
  intros a Hlt. left. cbn [heap]. rewrite Hheap.
  apply lookup_insert_ne. lia.
Qed.

(** One call of the host writes no instance but its target. *)
Lemma perform_instances (op : Op) (w w1 : World) (latest : option nat)
    (c : Completion (option nat)) (t : list Event) :
  perform env op latest w = Some (c, w1, t) ->
  instances_evolve (fun a => target op = Some a) w w1.
Proof.
  intros Hrun.
  assert (Hweaken : forall this w', instances_evolve (fun a => a = this) w w' ->
            instances_evolve (fun a => Some this = Some a) w w').
  { intros this w' [Hn Hw]. split; [exact Hn |]. intros a Hlt.
    destruct (Hw a Hlt) as [Hsame | [-> Hchg]]; [by left | by right]. }
  destruct op as [info | this info | this info | this
                 | a ti b | this a ti b | now]; cbn [perform target] in *.
  - unfold mbind, exec_bind in Hrun.
    destruct (construct info w) as [[[[this | ex] w0] t0] |] eqn:Hnew;
      try discriminate.
    + apply construct_inv in Hnew. unfold take_pending_exception in Hrun.
      injection Hrun as <- <- <-. destruct Hnew as [Hn Hw].
      split; [exact Hn |]. intros a Hlt.
      destruct (Hw a Hlt) as [Hsame | [[] _]]. by left.
    + destruct (supplies_callback info) eqn:Hinfo.
      * destruct info as [| [] rest]; try discriminate.
        by rewrite construct_run_function in Hnew.
      * by rewrite (construct_run_rejected w info Hinfo) in Hnew.
  - unfold mbind, exec_bind in Hrun.
    destruct (Start this info w) as [[[[r | ex] w0] t0] |] eqn:Hop;
      try discriminate; injection Hrun as <- <- <-;
      exact (Hweaken _ _ (Start_inv _ _ _ _ _ _ Hop)).
  - unfold mbind, exec_bind in Hrun.
    destruct (Stop this info w) as [[[[r | ex] w0] t0] |] eqn:Hop;
      try discriminate; injection Hrun as <- <- <-;
      exact (Hweaken _ _ (Stop_inv _ _ _ _ _ _ Hop)).
  - unfold mbind at 1, exec_bind at 1 in Hrun.
    destruct (delete_instance this w) as [[[[r | ex] w0] t0] |] eqn:Hop;
      try discriminate; injection Hrun as <- <- <-;
      exact (Hweaken _ _ (delete_instance_inv _ _ _ _ _ Hop)).
  - unfold mbind at 1, exec_bind at 1 in Hrun.
    destruct (call_g_callback env a ti b w) as [[[[r | ex] w0] t0] |] eqn:Hop;
      try discriminate; injection Hrun as <- <- <-;
      unfold call_g_callback, get_world, mbind, exec_bind in Hop;
      (destruct (g_callback w) as [this |];
       [ destruct (OnNotificationReceived env this a ti b w)
           as [[[c' w2] t2] |] eqn:Hon; [| discriminate];
         injection Hop as _ <- _;
         apply OnNotificationReceived_inv in Hon
           as (? & ? & ? & _ & _ & _ & _ & -> & _)
       | injection Hop as _ <- _ ]);
      apply instances_evolve_refl.
  - unfold mbind at 1, exec_bind at 1 in Hrun.
    destruct (OnNotificationReceived env this a ti b w)
      as [[[[r | ex] w0] t0] |] eqn:Hon; try discriminate;
      injection Hrun as <- <- <-;
      apply OnNotificationReceived_inv in Hon
        as (? & ? & ? & _ & _ & _ & _ & -> & _);
      apply instances_evolve_refl.
  - injection Hrun as <- <- <-. split; [cbn; lia | intros ? _; by left].
Qed.

Lemma run_instances (ops : list Op) (w w1 : World) (latest : option nat)
    (c : Completion (option nat)) (t : list Event) :
  run env ops latest w = Some (c, w1, t) ->
  instances_evolve (targets ops) w w1.
Proof.
  revert w latest t. induction ops as [| op ops IH]; intros w latest t Hrun.
  - cbn [run] in Hrun. injection Hrun as <- <- <-. apply instances_evolve_refl.
  - cbn [run] in Hrun. unfold mbind, exec_bind in Hrun.
    destruct (perform env op latest w) as [[[[l | ex] w0] t0] |] eqn:Hop;
      try discriminate.
    + destruct (run env ops l w0) as [[[c' w2] t2] |] eqn:Hrest;
        try discriminate.
      injection Hrun as <- <- <-.
      apply (instances_evolve_trans (fun a => target op = Some a) (targets ops)
               _ w w0 w2).
      * intros a Ha. by apply Exists_cons_hd.
      * intros a Ha. by apply Exists_cons_tl.
      * exact (perform_instances _ _ _ _ _ _ Hop).
      * exact (IH _ _ _ Hrest).
    + injection Hrun as <- <- <-.
      destruct (perform_instances _ _ _ _ _ _ Hop) as [Hn Hw].
      split; [exact Hn |]. intros a Hlt.
      destruct (Hw a Hlt) as [Hsame | [Ht Hchg]]; [by left |].
      right. split; [by apply Exists_cons_hd | exact Hchg].
Qed.

(** No program replaces the callback of an instance: an instance that
    exists before and after a program holds the same callback. *)
Theorem callback_is_never_replaced (ops : list Op) (w w1 : World)
    (latest : option nat) (c : Completion (option nat)) (t : list Event)
    (this : nat) (m m1 : NotificationMonitor) :
  run env ops latest w = Some (c, w1, t) ->
  (this < next_address w)%nat ->
  heap w !! this = Some m -> heap w1 !! this = Some m1 ->
  callback_ m1 = callback_ m.
Proof.
  intros Hrun Hlt Hm Hm1.
  destruct (run_instances ops w w1 latest c t Hrun) as [_ Hw].
  destruct (Hw this Hlt) as [Hsame | [_ [Hnone | (m' & b & Hm' & Hm1')]]];
    try congruence.
  rewrite Hm1' in Hm1. injection Hm1 as <-. cbn. congruence.
Qed.


End Instances.

Lemma callback_is_never_replaced_witness :
  run Sample.env
    [OpStop 0 []; OpStart 0 []; OpNotify "Mail" "Hello" "World"]
    (Some 0%nat) Sample.active
  = Some (Returns (Some 0%nat), Sample.active,
          [EvSetupMonitoring 0;
           EvHostCall 7
             (notification_record Sample.env "Mail" "Hello" "World"
                "2026-10-30T00:00:00Z")]) /\
  (0 < next_address Sample.active)%nat /\
  heap Sample.active !! 0%nat
  = Some {| callback_ := Some 7%nat; isMonitoring_ := true |} /\
  callback_ {| callback_ := Some 7%nat; isMonitoring_ := true |}
  = callback_ {| callback_ := Some 7%nat; isMonitoring_ := true |}.
Proof.
  assert (Hrun : run Sample.env
    [OpStop 0 []; OpStart 0 []; OpNotify "Mail" "Hello" "World"]
    (Some 0%nat) Sample.active
  = Some (Returns (Some 0%nat), Sample.active,
          [EvSetupMonitoring 0;
           EvHostCall 7
             (notification_record Sample.env "Mail" "Hello" "World"
                "2026-10-30T00:00:00Z")])) by reflexivity.
  assert (Hlt : (0 < next_address Sample.active)%nat) by (cbn; lia).
  assert (Hm : heap Sample.active !! 0%nat
               = Some {| callback_ := Some 7%nat; isMonitoring_ := true |})
    by reflexivity.
  split; [exact Hrun |]. split; [exact Hlt |]. split; [exact Hm |].
  exact (callback_is_never_replaced Sample.env _ _ _ _ _ _ 0 _ _
           Hrun Hlt Hm Hm).
Defined.


(** ** The entry point of [notification-monitor.cc] *)

Section EntryPoint.
Variable env : Environment.

Lemma run_without_instances (ops : list Op) (w w1 : World)
    (latest : option nat) (c : Completion (option nat)) (t : list Event) :
  Forall (fun op => match op with
                    | OpStart _ _ | OpStop _ _ | OpDelete _ | OpClock _ => True
                    | _ => False
                    end) ops ->
  heap w = ∅ ->
  run env ops latest w = Some (c, w1, t) ->
  heap w1 = ∅ /\ globals_of w1 = globals_of w /\ t = [].
Proof.
  intros Hops. revert w w1 latest c t.
  induction Hops as [| op ops Hop _ IH]; intros w w1 latest c t Hempty Hrun.
  - cbn [run] in Hrun. by injection Hrun as <- <- <-.
  - cbn [run] in Hrun. unfold mbind at 1, exec_bind at 1 in Hrun.
    destruct op as [info | this info | this info | this
                   | a ti b | this a ti b | now]; try contradiction;
      cbn [perform] in Hrun.
    + unfold Start, mbind, exec_bind, load in Hrun.
      by rewrite Hempty, lookup_empty in Hrun.
    + unfold Stop, set_isMonitoring, mbind, exec_bind, load in Hrun.
      by rewrite Hempty, lookup_empty in Hrun.
    + unfold delete_instance, destructor, mbind, exec_bind, load in Hrun.
      by rewrite Hempty, lookup_empty in Hrun.
    + unfold set_clock, mbind, exec_bind, mret, exec_ret in Hrun.
      cbn beta iota in Hrun.
      match type of Hrun with
      | match run env ops latest ?w0 with _ => _ end = _ =>
          destruct (run env ops latest w0) as [[[c' w2] t2] |] eqn:Hrest;
          [| discriminate];
          apply IH in Hrest; [| exact Hempty]
      end.
      injection Hrun as <- <- <-. destruct Hrest as (H1 & H2 & ->). done.
Qed.

(** The entry point of [notification-monitor.cc] registers nothing:
    through the [exports] object it returns for an empty one, no
    construction reaches the native constructor, so a program of the host
    that runs leaves the process without instances, with both globals as
    they were, and without any event. *)
Theorem entry_point_exports_nothing (program : list JsOp) (now : Z)
    (c : Completion (option nat)) (w1 : World) (t : list Event) :
  js_run env (Init_entry_point ∅) program (initial_world now)
  = Some (c, w1, t) ->
  heap w1 = ∅ /\ g_callback w1 = None /\ g_monitorInstance w1 = None /\ t = [].
Proof.
  intros Hrun. unfold js_run, Init_entry_point in Hrun.
  apply run_without_instances in Hrun as (Hheap & Hglobals & Ht);
    [| | reflexivity].
  - injection Hglobals as Hi Hc _. done.
  - clear Hrun. induction program as [| op program IH]; [constructor |].
    cbn [omap list_omap].
    destruct op as [property info | this cls property info | this | now'];
      cbn [native_call].
    + by rewrite lookup_empty.
    + destruct (method_of cls property) as [[] |]; [| | exact IH];
        by constructor.
    + by constructor.
    + by constructor.
Qed.

End EntryPoint.

Lemma entry_point_exports_nothing_witness :
  js_run Sample.env (Init_entry_point ∅)
    [JsNew "NotificationMonitor" [JsFunction 7]; JsClock 5]
    (initial_world Sample.now)
  = Some (Returns None, initial_world 5, []) /\
  heap (initial_world 5) = ∅ /\ g_callback (initial_world 5) = None /\
  g_monitorInstance (initial_world 5) = None /\ @nil Event = [].
Proof.
  assert (Hrun : js_run Sample.env (Init_entry_point ∅)
            [JsNew "NotificationMonitor" [JsFunction 7]; JsClock 5]
            (initial_world Sample.now)
          = Some (Returns None, initial_world 5, [])) by reflexivity.
  split; [exact Hrun |].
  exact (entry_point_exports_nothing Sample.env _ _ _ _ _ Hrun).
Defined.
